(** * Goal tracker server: ownership-checked CRUD over a relational store

    Shallow embedding of the request handlers of the Express server
    (the file that opens the [goals.db] database, declares the four tables
    and registers the [/api/...] routes).

    Conventions of the embedding.
    - The [users] and [settings] tables have a TEXT primary key and are
      only ever read by key: they are finite maps from the key.
    - The [tasks] and [subtasks] tables have an INTEGER PRIMARY KEY
      AUTOINCREMENT; they are lists of rows kept in rowid order, which is the
      order in which a full table scan ([SELECT ... WHERE task_id = ?] has no
      index to use) visits them.  Inserts append at the end.
    - Foreign keys are enforced (the driver turns them on by default), so
      [DELETE FROM tasks] cascades to [subtasks] and an insert whose parent
      row is missing throws.
    - A statement that throws makes the handler answer with a server error
      and leaves the database as it was.
    - Times are integers (milliseconds since the epoch).  The texts the code
      stores ([CURRENT_TIMESTAMP], [toISOString()]) are fixed-width and
      compare in chronological order; [CURRENT_TIMESTAMP] has a resolution
      of one second.
    - A route parameter [:id] is the integer it denotes under the column's
      INTEGER affinity. *)

From stdpp Require Import gmap strings list fin_maps sorting.
From Stdlib Require Import ZArith Lia.

Local Open Scope string_scope.
Local Open Scope Z_scope.

(** ** Rows *)

(** users (id TEXT PRIMARY KEY, email TEXT UNIQUE, name TEXT, picture TEXT,
    ads_removed INTEGER DEFAULT 0); the key is the map's key. *)
Record user_row := mkUser {
  u_email : option string;
  u_name : option string;
  u_picture : option string;
  u_ads_removed : Z
}.

(** tasks (id, user_id TEXT NOT NULL, title TEXT NOT NULL, created_at) *)
Record task_row := mkTask {
  t_id : Z;
  t_user_id : string;
  t_title : string;
  t_created_at : Z
}.

(** subtasks (id, task_id INTEGER NOT NULL, title TEXT NOT NULL,
    completed INTEGER DEFAULT 0, photo_url TEXT, completed_at DATETIME) *)
Record subtask_row := mkSubtask {
  s_id : Z;
  s_task_id : Z;
  s_title : string;
  s_completed : Z;
  s_photo_url : option string;
  s_completed_at : option Z
}.

Global Instance user_row_eq_dec : EqDecision user_row.
Proof. solve_decision. Defined.
Global Instance task_row_eq_dec : EqDecision task_row.
Proof. solve_decision. Defined.
Global Instance subtask_row_eq_dec : EqDecision subtask_row.
Proof. solve_decision. Defined.

(** ** The database *)

Record db := mkDb {
  db_users : gmap string user_row;
  db_tasks : list task_row;
  db_subtasks : list subtask_row;
  db_settings : gmap string string;
  (** sqlite_sequence: the largest rowid ever handed out, per table *)
  seq_tasks : Z;
  seq_subtasks : Z
}.

(** The state right after the schema script ran on an empty file:
    [INSERT OR IGNORE INTO settings VALUES ('ads_removed', 'false')]. *)
Definition init_db : db :=
  mkDb ∅ [] [] {[ "ads_removed" := "false" ]} 0 0.

(** The profile the identity provider returns; the handler stores it whole
    in [req.session.user].  A profile here always carries its [id]: the
    handler does not check for one, and a reply without it is not part of
    this development, whose statements are all about profiles with an id. *)
Record google_user := mkGoogle {
  g_id : string;
  g_email : option string;
  g_name : option string;
  g_picture : option string
}.

Definition session := option google_user.

(** ** Requests and responses *)

Inductive request :=
| GetAuthUrl
| AuthCallback (fetched : option google_user)
    (* [None]: the token or profile exchange threw *)
| GetMe
| PostLogout
| GetSettings
| PostRemoveAds
| GetTasks
| PostTask (title : option string)
| DeleteTask (id : Z)
| PostSubtask (id : Z) (title : option string)
| PatchSubtask (id : Z) (completed : option string) (file : option string)
    (* [file]: the name multer stored the upload under, if there was one *)
| GetPhotos.

Inductive body :=
| JUrl
| JUser (u : option (string * user_row))
| JSuccess
| JSettings (adsRemoved : bool)
| JTasks (l : list (task_row * list subtask_row))
| JTaskCreated (id : Z) (title : string)
| JSubtaskCreated (id task_id : Z) (title : string)
| JSubtask (s : option subtask_row)
| JPhotos (l : list (subtask_row * string)).

Inductive response :=
| Json (b : body)
| Status (code : Z) (error : string)
| Html
| Redirect (location : string)
| ServerError.

(** ** Statements *)

(** SELECT * FROM tasks WHERE id = ? AND user_id = ?   (.get: first row) *)
Definition select_owned_task (d : db) (id : Z) (uid : string) : option task_row :=
  head (filter (λ t, t_id t = id ∧ t_user_id t = uid) (db_tasks d)).

(** SELECT * FROM subtasks WHERE task_id = ?   (.all, scan order) *)
Definition select_subtasks_of (d : db) (tid : Z) : list subtask_row :=
  filter (λ s, s_task_id s = tid) (db_subtasks d).

(** SELECT * FROM subtasks WHERE id = ?   (.get) *)
Definition select_subtask (d : db) (sid : Z) : option subtask_row :=
  head (filter (λ s, s_id s = sid) (db_subtasks d)).

(** SELECT subtasks.* FROM subtasks JOIN tasks ON subtasks.task_id = tasks.id
    WHERE subtasks.id = ? AND tasks.user_id = ?   (.get) *)
Definition select_owned_subtask (d : db) (sid : Z) (uid : string)
  : option subtask_row :=
  head (s ← db_subtasks d;
        t ← db_tasks d;
        if decide (s_task_id s = t_id t ∧ s_id s = sid ∧ t_user_id t = uid)
        then [s] else []).

(** ORDER BY key DESC over integers: [a] may come before [b]. *)
Definition desc_by {A} (key : A → Z) : relation A :=
  λ a b, key b ≤ key a.

Global Instance desc_by_dec {A} (key : A → Z) : RelDecision (desc_by key).
Proof. intros a b. unfold desc_by. apply _. Defined.

Definition order_by_desc {A} (key : A → Z) (l : list A) : list A :=
  merge_sort (desc_by key) l.

(** NULL sorts below every value. *)
Definition null_le (a b : option Z) : Prop :=
  match a, b with
  | None, _ => True
  | Some _, None => False
  | Some x, Some y => x ≤ y
  end.

Global Instance null_le_dec a b : Decision (null_le a b).
Proof. destruct a, b; simpl; apply _. Defined.

(** ORDER BY key DESC over a nullable column. *)
Definition desc_by_null {A} (key : A → option Z) : relation A :=
  λ a b, null_le (key b) (key a).

Global Instance desc_by_null_dec {A} (key : A → option Z) :
  RelDecision (desc_by_null key).
Proof. intros a b. unfold desc_by_null. apply _. Defined.

Definition order_by_desc_null {A} (key : A → option Z) (l : list A) : list A :=
  merge_sort (desc_by_null key) l.

(** SELECT subtasks.*, tasks.title as task_title FROM subtasks
    JOIN tasks ON subtasks.task_id = tasks.id
    WHERE tasks.user_id = ? AND photo_url IS NOT NULL
    (the rows of the join, before they are ordered) *)
Definition photo_rows (d : db) (uid : string) : list (subtask_row * string) :=
  s ← db_subtasks d;
  t ← db_tasks d;
  if decide (s_task_id s = t_id t ∧ t_user_id t = uid ∧ s_photo_url s ≠ None)
  then [(s, t_title t)] else [].

(** ... ORDER BY completed_at DESC   (.all) *)
Definition select_photos (d : db) (uid : string) : list (subtask_row * string) :=
  order_by_desc_null (λ p, s_completed_at p.1) (photo_rows d uid).

(** The rowid AUTOINCREMENT hands out: one more than the largest ever used. *)
Definition max_id {A} (id : A → Z) (l : list A) : Z :=
  foldr (λ r m, Z.max (id r) m) 0 l.

Definition next_rowid {A} (id : A → Z) (seq : Z) (l : list A) : Z :=
  Z.max seq (max_id id l) + 1.

(** CURRENT_TIMESTAMP: whole seconds. *)
Definition current_timestamp (now : Z) : Z := now / 1000.

(** UNIQUE(email): another row already holds this (non-NULL) email. *)
Definition email_taken (users : gmap string user_row) (id : string)
    (email : option string) : Prop :=
  map_Exists (λ k u, k ≠ id ∧ is_Some email ∧ u_email u = email) users.

Global Instance email_taken_dec users id email :
  Decision (email_taken users id email).
Proof. unfold email_taken. apply _. Defined.

(** INSERT INTO users (id, email, name, picture) VALUES (?, ?, ?, ?)
    ON CONFLICT(id) DO UPDATE SET email=excluded.email, name=excluded.name,
    picture=excluded.picture.   [None]: the statement threw. *)
Definition upsert_user (g : google_user) (d : db) : option db :=
  if decide (email_taken (db_users d) (g_id g) (g_email g)) then None
  else
    let row :=
      match db_users d !! g_id g with
      | Some u => mkUser (g_email g) (g_name g) (g_picture g) (u_ads_removed u)
      | None => mkUser (g_email g) (g_name g) (g_picture g) 0
      end in
    Some (mkDb (<[g_id g := row]> (db_users d)) (db_tasks d) (db_subtasks d)
               (db_settings d) (seq_tasks d) (seq_subtasks d)).

(** UPDATE users SET ads_removed = 1 WHERE id = ? *)
Definition update_ads_removed (uid : string) (d : db) : db :=
  mkDb (alter (λ u, mkUser (u_email u) (u_name u) (u_picture u) 1) uid
          (db_users d))
       (db_tasks d) (db_subtasks d) (db_settings d)
       (seq_tasks d) (seq_subtasks d).

(** INSERT INTO tasks (user_id, title) VALUES (?, ?)
    Returns lastInsertRowid.  Throws on a NULL title (NOT NULL) and on a
    user id that is no row of users (foreign key). *)
Definition insert_task (now : Z) (uid : string) (title : option string)
    (d : db) : option (Z * db) :=
  match title, db_users d !! uid with
  | Some ti, Some _ =>
      let id := next_rowid t_id (seq_tasks d) (db_tasks d) in
      Some (id, mkDb (db_users d)
                  (db_tasks d ++ [mkTask id uid ti (current_timestamp now)])
                  (db_subtasks d) (db_settings d) id (seq_subtasks d))
  | _, _ => None
  end.

(** DELETE FROM tasks WHERE id = ?   with ON DELETE CASCADE on subtasks *)
Definition delete_task (id : Z) (d : db) : db :=
  mkDb (db_users d)
       (filter (λ t, t_id t ≠ id) (db_tasks d))
       (filter (λ s, s_task_id s ≠ id) (db_subtasks d))
       (db_settings d) (seq_tasks d) (seq_subtasks d).

(** INSERT INTO subtasks (task_id, title) VALUES (?, ?) *)
Definition insert_subtask (tid : Z) (title : option string) (d : db)
  : option (Z * db) :=
  match title with
  | Some ti =>
      if decide (tid ∈ t_id <$> db_tasks d) then
        let id := next_rowid s_id (seq_subtasks d) (db_subtasks d) in
        Some (id, mkDb (db_users d) (db_tasks d)
                    (db_subtasks d ++ [mkSubtask id tid ti 0 None None])
                    (db_settings d) (seq_tasks d) id)
      else None
  | None => None
  end.

Definition set_subtasks (l : list subtask_row) (d : db) : db :=
  mkDb (db_users d) (db_tasks d) l (db_settings d)
       (seq_tasks d) (seq_subtasks d).

(** UPDATE subtasks SET completed = ?, photo_url = ?, completed_at = ?
    WHERE id = ? *)
Definition update_subtask_photo (sid completed : Z) (photo : option string)
    (completed_at : option Z) (d : db) : db :=
  set_subtasks
    ((λ s, if decide (s_id s = sid)
           then mkSubtask (s_id s) (s_task_id s) (s_title s)
                          completed photo completed_at
           else s) <$> db_subtasks d) d.

(** UPDATE subtasks SET completed = ?, completed_at = ? WHERE id = ? *)
Definition update_subtask_flag (sid completed : Z) (completed_at : option Z)
    (d : db) : db :=
  set_subtasks
    ((λ s, if decide (s_id s = sid)
           then mkSubtask (s_id s) (s_task_id s) (s_title s)
                          completed (s_photo_url s) completed_at
           else s) <$> db_subtasks d) d.

(** ** Handlers *)

(** What a handler leaves behind: the answer, the database, the session. *)
Definition outcome : Type := response * db * session.

Definition unauthorized : response := Status 401 "Unauthorized".
Definition forbidden : response := Status 403 "Forbidden".

(** requireAuth: the handler runs only when [req.session.user] is set. *)
Definition requireAuth (sess : session) (d : db)
    (next : google_user → outcome) : outcome :=
  match sess with
  | Some g => next g
  | None => (unauthorized, d, sess)
  end.

(** GET /api/auth/google/callback, after the two fetches. *)
Definition auth_callback (fetched : option google_user) (sess : session)
    (d : db) : outcome :=
  match fetched with
  | Some g =>
      match upsert_user g d with
      | Some d' => (Html, d', Some g)
      | None => (Redirect "/auth-error", d, sess)
      end
  | None => (Redirect "/auth-error", d, sess)
  end.

(** GET /api/auth/me *)
Definition get_me (sess : session) (d : db) : outcome :=
  match sess with
  | Some g =>
      (Json (JUser (pair (g_id g) <$> db_users d !! g_id g)), d, sess)
  | None => (Json (JUser None), d, sess)
  end.

(** GET /api/settings *)
Definition get_settings (sess : session) (d : db) : outcome :=
  match sess with
  | Some g =>
      (* user?.ads_removed === 1 *)
      let flag := match db_users d !! g_id g with
                  | Some u => bool_decide (u_ads_removed u = 1)
                  | None => false
                  end in
      (Json (JSettings flag), d, sess)
  | None =>
      (* adsRemoved.value === 'true'; a missing row makes [.value] throw *)
      match db_settings d !! "ads_removed" with
      | Some v => (Json (JSettings (bool_decide (v = "true"))), d, sess)
      | None => (ServerError, d, sess)
      end
  end.

(** POST /api/settings/remove-ads *)
Definition remove_ads (sess : session) (d : db) : outcome :=
  requireAuth sess d (λ g,
    (Json JSuccess, update_ads_removed (g_id g) d, sess)).

(** GET /api/tasks *)
Definition get_tasks (sess : session) (d : db) : outcome :=
  requireAuth sess d (λ g,
    let tasks := order_by_desc t_created_at
                   (filter (λ t, t_user_id t = g_id g) (db_tasks d)) in
    (Json (JTasks ((λ t, (t, select_subtasks_of d (t_id t))) <$> tasks)),
     d, sess)).

(** POST /api/tasks *)
Definition post_task (now : Z) (title : option string) (sess : session)
    (d : db) : outcome :=
  requireAuth sess d (λ g,
    match title, insert_task now (g_id g) title d with
    | Some ti, Some (id, d') => (Json (JTaskCreated id ti), d', sess)
    | _, _ => (ServerError, d, sess)
    end).

(** DELETE /api/tasks/:id *)
Definition delete_task_handler (id : Z) (sess : session) (d : db) : outcome :=
  requireAuth sess d (λ g,
    match select_owned_task d id (g_id g) with
    | None => (forbidden, d, sess)
    | Some _ => (Json JSuccess, delete_task id d, sess)
    end).

(** POST /api/tasks/:id/subtasks *)
Definition post_subtask (id : Z) (title : option string) (sess : session)
    (d : db) : outcome :=
  requireAuth sess d (λ g,
    match select_owned_task d id (g_id g) with
    | None => (forbidden, d, sess)
    | Some _ =>
        match title, insert_subtask id title d with
        | Some ti, Some (sid, d') =>
            (Json (JSubtaskCreated sid id ti), d', sess)
        | _, _ => (ServerError, d, sess)
        end
    end).

(** The test [completed === "true" || completed === "1"] on the form field. *)
Definition completed_requested (completed : option string) : bool :=
  bool_decide (completed = Some "true" ∨ completed = Some "1").

(** JavaScript truthiness of a string-or-null. *)
Definition truthy (v : option string) : bool :=
  match v with
  | None => false
  | Some s => negb (bool_decide (s = ""))
  end.

(** PATCH /api/subtasks/:id *)
Definition patch_subtask (now : Z) (subtaskId : Z) (completed : option string)
    (file : option string) (sess : session) (d : db) : outcome :=
  requireAuth sess d (λ g,
    match select_owned_subtask d subtaskId (g_id g) with
    | None => (forbidden, d, sess)
    | Some _ =>
        let photoUrl := (λ filename, "/uploads/" +:+ filename) <$> file in
        let completedAt :=
          if completed_requested completed then Some now else None in
        let d' :=
          if truthy photoUrl
          then update_subtask_photo subtaskId 1 photoUrl completedAt d
          else update_subtask_flag subtaskId
                 (if completed_requested completed then 1 else 0)
                 completedAt d in
        (Json (JSubtask (select_subtask d' subtaskId)), d', sess)
    end).

(** GET /api/photos *)
Definition get_photos (sess : session) (d : db) : outcome :=
  requireAuth sess d (λ g,
    (Json (JPhotos (select_photos d (g_id g))), d, sess)).

(** The server: one request against the current database and session.
    [now] is the clock reading during the request. *)
Definition handle (now : Z) (r : request) (sess : session) (d : db)
  : outcome :=
  match r with
  | GetAuthUrl => (Json JUrl, d, sess)
  | AuthCallback fetched => auth_callback fetched sess d
  | GetMe => get_me sess d
  | PostLogout => (Json JSuccess, d, None)
  | GetSettings => get_settings sess d
  | PostRemoveAds => remove_ads sess d
  | GetTasks => get_tasks sess d
  | PostTask title => post_task now title sess d
  | DeleteTask id => delete_task_handler id sess d
  | PostSubtask id title => post_subtask id title sess d
  | PatchSubtask id completed file =>
      patch_subtask now id completed file sess d
  | GetPhotos => get_photos sess d
  end.

Definition resp (o : outcome) : response := o.1.1.
Definition db_after (o : outcome) : db := o.1.2.
Definition session_after (o : outcome) : session := o.2.

(** What the two UPDATE statements write into the row they hit. *)
Definition patched (now : Z) (completed : option string)
    (file : option string) (s : subtask_row) : subtask_row :=
  let completedAt :=
    if completed_requested completed then Some now else None in
  match file with
  | Some filename =>
      mkSubtask (s_id s) (s_task_id s) (s_title s) 1
                (Some ("/uploads/" +:+ filename)) completedAt
  | None =>
      mkSubtask (s_id s) (s_task_id s) (s_title s)
                (if completed_requested completed then 1 else 0)
                (s_photo_url s) completedAt
  end.

(** ** A small scenario, used to exercise the handlers *)

Definition alice : google_user :=
  mkGoogle "u1" (Some "alice@example.org") (Some "Alice") None.
Definition bob : google_user :=
  mkGoogle "u2" (Some "bob@example.org") (Some "Bob") None.

(** Run a list of (clock, session, request) against a database. *)
Definition run (l : list (Z * session * request)) (d : db) : db :=
  foldl (λ d x, db_after (handle x.1.1 x.2 x.1.2 d)) d l.

(** Alice and Bob log in; Alice creates two tasks, three subtasks and
    uploads a photo for the first one; Bob creates one task and a subtask. *)
Definition demo_script : list (Z * session * request) :=
  [ (1000, None, AuthCallback (Some alice));
    (2000, None, AuthCallback (Some bob));
    (3000, Some alice, PostTask (Some "run"));
    (4000, Some bob, PostTask (Some "read"));
    (5000, Some alice, PostTask (Some "swim"));
    (6000, Some alice, PostSubtask 1 (Some "step1"));
    (7000, Some bob, PostSubtask 2 (Some "page1"));
    (8000, Some alice, PostSubtask 3 (Some "lap1"));
    (9000, Some alice, PostSubtask 1 (Some "step2"));
    (9500, Some alice, PatchSubtask 1 (Some "true") (Some "a.png")) ].

Definition demo_db : db := Eval vm_compute in run demo_script init_db.

(** The same settings table, but Alice has bought the removal of ads. *)
Definition demo_db_premium : db :=
  Eval vm_compute in db_after (handle 9900 PostRemoveAds (Some alice) demo_db).

(** The scenario, after Bob created a second task, which has no subtask
    yet (its id is 4). *)
Definition demo_db_fresh : db :=
  Eval vm_compute in
    db_after (handle 9800 (PostTask (Some "paint")) (Some bob) demo_db).

(** ** Well-formed databases

    What the schema and the rowid allocation guarantee of every reachable
    database. *)

(** Rows in strictly increasing rowid order. *)
Definition rowid_order {A} (id : A → Z) : list A → Prop :=
  StronglySorted (λ a b, id a < id b).

Record wf (d : db) : Prop := mkWf {
  wf_tasks_order : rowid_order t_id (db_tasks d);
  wf_subtasks_order : rowid_order s_id (db_subtasks d);
  wf_tasks_seq : Forall (λ t, t_id t ≤ seq_tasks d) (db_tasks d);
  wf_subtasks_seq : Forall (λ s, s_id s ≤ seq_subtasks d) (db_subtasks d);
  (* FOREIGN KEY (user_id) REFERENCES users(id) *)
  wf_tasks_fk : Forall (λ t, is_Some (db_users d !! t_user_id t)) (db_tasks d);
  (* FOREIGN KEY (task_id) REFERENCES tasks(id) *)
  wf_subtasks_fk :
    Forall (λ s, ∃ t, t ∈ db_tasks d ∧ t_id t = s_task_id s) (db_subtasks d);
  wf_settings : is_Some (db_settings d !! "ads_removed")
}.

(** ** Further notions used to state what the server keeps *)

(** The routes registered with [requireAuth]. *)
Definition protected (r : request) : bool :=
  match r with
  | PostRemoveAds | GetTasks | PostTask _ | DeleteTask _
  | PostSubtask _ _ | PatchSubtask _ _ _ | GetPhotos => true
  | GetAuthUrl | AuthCallback _ | GetMe | PostLogout | GetSettings => false
  end.

(** UNIQUE(email): no two rows of [users] share a non-NULL email. *)
Definition emails_unique (users : gmap string user_row) : Prop :=
  ∀ i j u v e,
    users !! i = Some u → users !! j = Some v →
    u_email u = Some e → u_email v = Some e → i = j.

(** What the handlers ever write into a row of [subtasks]. *)
Definition subtask_row_ok (s : subtask_row) : Prop :=
  (s_completed s = 0 ∨ s_completed s = 1) ∧
  (is_Some (s_completed_at s) → s_completed s = 1) ∧
  (∀ url, s_photo_url s = Some url → ∃ filename, url = "/uploads/" +:+ filename).


(** What a user owns: the tasks with the user's id, and the subtasks whose
    parent is one of them. *)
Definition own_tasks (d : db) (uid : string) : list task_row :=
  filter (λ t, t_user_id t = uid) (db_tasks d).

Definition own_subtasks (d : db) (uid : string) : list subtask_row :=
  filter (λ s, s_task_id s ∈ t_id <$> own_tasks d uid) (db_subtasks d).


(** ** The client (App.tsx)

    The part of the React client that computes with the server's answers:
    the grouping of the gallery and the local update of the task list after
    a toggle.  A [PhotoEntry] is a subtask row with [task_title]; a [Task] of
    the list is a task row with its [subtasks]. *)

Definition photo_entry : Type := subtask_row * string.
Definition task_entry : Type := task_row * list subtask_row.

Section gallery_def.
(** [new Date(photo.completed_at || "").toLocaleDateString(undefined, {year:
    'numeric', month: 'long', day: 'numeric'})]: the label depends on the
    browser's locale and time zone and is a parameter here.  Such a label is
    never an array index nor the name of a member of [Object.prototype], so
    the object [acc] is a list of its own keys in insertion order, which is
    the order [Object.keys] returns. *)
Variable date_label : option Z → string.

Definition photo_label (photo : photo_entry) : string :=
  date_label (s_completed_at photo.1).

(** [if (!acc[date]) acc[date] = []; acc[date].push(photo)] *)
Fixpoint push_photo (date : string) (photo : photo_entry)
    (acc : list (string * list photo_entry)) : list (string * list photo_entry) :=
  match acc with
  | [] => [(date, [photo])]
  | (k, ps) :: rest =>
      if decide (k = date) then (k, (ps ++ [photo])%list) :: rest
      else (k, ps) :: push_photo date photo rest
  end.

(** [photos.reduce((acc, photo) => ..., {})] *)
Definition groupedPhotos (photos : list photo_entry)
  : list (string * list photo_entry) :=
  foldl (λ acc photo, push_photo (photo_label photo) photo acc) [] photos.

(** [Object.keys(groupedPhotos)] *)
Definition dates (photos : list photo_entry) : list string :=
  (groupedPhotos photos).*1.
End gallery_def.

(** toggleSubtask, after the response arrived:
    [tasks.map(t => ({...t, subtasks: t.subtasks.map(s =>
       s.id === subtaskId ? updatedSubtask : s)}))],
    where [updatedSubtask] is the parsed body of the PATCH. *)
Definition toggleSubtask_tasks (subtaskId : Z) (updatedSubtask : subtask_row)
    (tasks : list task_entry) : list task_entry :=
  (λ t : task_entry,
     (t.1, (λ s, if decide (s_id s = subtaskId) then updatedSubtask else s)
             <$> t.2)) <$> tasks.

(** deleteTask, after the response arrived:
    [tasks.filter(t => t.id !== taskId)] *)
Definition deleteTask_tasks (taskId : Z) (tasks : list task_entry)
  : list task_entry :=
  filter (λ t : task_entry, t_id t.1 ≠ taskId) tasks.


(** The elements of a list, each once, in the order of first appearance. *)
Fixpoint first_seen (l : list string) : list string :=
  match l with
  | [] => []
  | x :: l' => x :: filter (λ y, y ≠ x) (first_seen l')
  end.


(** * Properties *)

(** ** Tables in rowid order *)

Section rowid_order.
Context {A : Type} (id : A → Z).

Lemma rowid_order_filter (P : A → Prop) `{!∀ x, Decision (P x)} l :
  rowid_order id l → rowid_order id (filter P l).
Proof.
  unfold rowid_order. induction 1 as [|x l Hl IH Hx]; [constructor|].
  rewrite filter_cons. case_decide; [|done].
  constructor; [done|].
  rewrite Forall_forall in Hx |- *.
  intros y [_ Hy]%list_elem_of_filter. auto.
Qed.

Lemma rowid_order_snoc l x :
  rowid_order id l → Forall (λ y, id y < id x) l →
  rowid_order id (l ++ [x]).
Proof.
  unfold rowid_order. intros Hl Hx.
  apply StronglySorted_app_2; [|done|repeat constructor].
  rewrite Forall_forall in Hx.
  intros y z Hy ->%list_elem_of_singleton. auto.
Qed.

(** Rewriting rows in place without touching the key keeps the order. *)
Lemma rowid_order_fmap (f : A → A) l :
  (∀ x, id (f x) = id x) → rowid_order id l → rowid_order id (f <$> l).
Proof.
  intros Hf. apply StronglySorted_fmap. intros x y. by rewrite !Hf.
Qed.

(** The key identifies the row. *)
Lemma rowid_order_inj l x y :
  rowid_order id l → x ∈ l → y ∈ l → id x = id y → x = y.
Proof.
  unfold rowid_order. induction 1 as [|z l Hl IH Hz]; [by inv 1|].
  rewrite Forall_forall in Hz.
  intros [->|Hx]%elem_of_cons [->|Hy]%elem_of_cons Heq; auto.
  - specialize (Hz _ Hy). lia.
  - specialize (Hz _ Hx). lia.
Qed.

Lemma rowid_order_NoDup l : rowid_order id l → NoDup l.
Proof.
  unfold rowid_order. induction 1 as [|z l Hl IH Hz]; constructor; [|done].
  rewrite Forall_forall in Hz. intros Hin. specialize (Hz _ Hin). lia.
Qed.

Lemma max_id_ge l x : x ∈ l → id x ≤ max_id id l.
Proof.
  induction 1 as [x l|x y l _ IH]; simpl; lia.
Qed.

Lemma next_rowid_fresh seq l :
  Forall (λ y, id y < next_rowid id seq l) l.
Proof.
  apply Forall_forall. intros x Hx%max_id_ge. unfold next_rowid. lia.
Qed.
End rowid_order.

Lemma wf_init_db : wf init_db.
Proof.
  split; simpl; try constructor.
  by eexists.
Qed.

Lemma wf_upsert_user g d d' : wf d → upsert_user g d = Some d' → wf d'.
Proof.
  intros [Hto Hso Hts Hss Htf Hsf Hset] Hup.
  unfold upsert_user in Hup. case_decide; [done|].
  injection Hup as <-. split; simpl; try done.
  eapply Forall_impl; [exact Htf|]. intros t Ht. simpl in *.
  rewrite lookup_insert. case_decide; [by eexists|done].
Qed.

Lemma wf_update_ads_removed uid d : wf d → wf (update_ads_removed uid d).
Proof.
  intros [Hto Hso Hts Hss Htf Hsf Hset]. split; simpl; try done.
  eapply Forall_impl; [exact Htf|]. intros t Ht. simpl in *.
  by apply lookup_alter_is_Some.
Qed.

Lemma wf_insert_task now uid title d id d' :
  wf d → insert_task now uid title d = Some (id, d') → wf d'.
Proof.
  intros [Hto Hso Hts Hss Htf Hsf Hset] Hins. unfold insert_task in Hins.
  destruct title as [ti|]; [|done].
  destruct (db_users d !! uid) as [u|] eqn:Hu; [|done].
  injection Hins as <- <-. split; simpl; try done.
  - apply rowid_order_snoc; [done|]. apply next_rowid_fresh.
  - apply Forall_app. split.
    + eapply Forall_impl; [exact Hts|]. intros x Hx. cbv beta in *.
      unfold next_rowid. lia.
    + apply Forall_singleton. unfold next_rowid. cbn [t_id]. lia.
  - apply Forall_app. split; [done|].
    apply Forall_singleton. simpl. by eexists.
  - eapply Forall_impl; [exact Hsf|]. intros s (t & Ht & Heq).
    exists t. split; [|done]. apply elem_of_app. by left.
Qed.

Lemma wf_delete_task id d : wf d → wf (delete_task id d).
Proof.
  intros [Hto Hso Hts Hss Htf Hsf Hset]. split; simpl; try done.
  - by apply rowid_order_filter.
  - by apply rowid_order_filter.
  - apply Forall_forall. intros t [_ Ht]%list_elem_of_filter.
    rewrite Forall_forall in Hts. auto.
  - apply Forall_forall. intros s [_ Hs]%list_elem_of_filter.
    rewrite Forall_forall in Hss. auto.
  - apply Forall_forall. intros t [_ Ht]%list_elem_of_filter.
    rewrite Forall_forall in Htf. auto.
  - apply Forall_forall. intros s [Hne Hs]%list_elem_of_filter.
    rewrite Forall_forall in Hsf.
    destruct (Hsf _ Hs) as (t & Ht & Heq).
    exists t. split; [|done]. apply list_elem_of_filter. split; [congruence|done].
Qed.

Lemma wf_insert_subtask tid title d id d' :
  wf d → insert_subtask tid title d = Some (id, d') → wf d'.
Proof.
  intros [Hto Hso Hts Hss Htf Hsf Hset] Hins. unfold insert_subtask in Hins.
  destruct title as [ti|]; [|done].
  case_decide as Hin; [|done].
  injection Hins as <- <-. split; simpl; try done.
  - apply rowid_order_snoc; [done|]. apply next_rowid_fresh.
  - apply Forall_app. split.
    + eapply Forall_impl; [exact Hss|]. intros x Hx. cbv beta in *.
      unfold next_rowid. lia.
    + apply Forall_singleton. unfold next_rowid. cbn [s_id]. lia.
  - apply Forall_app. split; [done|].
    apply Forall_singleton. simpl.
    apply list_elem_of_fmap in Hin as (t & -> & Ht). by exists t.
Qed.

Lemma wf_set_subtasks f d :
  (∀ s, s_id (f s) = s_id s) → (∀ s, s_task_id (f s) = s_task_id s) →
  wf d → wf (set_subtasks (f <$> db_subtasks d) d).
Proof.
  intros Hid Htid [Hto Hso Hts Hss Htf Hsf Hset]. split; simpl; try done.
  - by apply rowid_order_fmap.
  - apply Forall_fmap. eapply Forall_impl; [exact Hss|].
    intros s. simpl. by rewrite Hid.
  - apply Forall_fmap. eapply Forall_impl; [exact Hsf|].
    intros s. simpl. by rewrite Htid.
Qed.

(** Every request keeps the database well formed. *)
Lemma wf_handle now r sess d : wf d → wf (db_after (handle now r sess d)).
Proof.
  intros Hwf. unfold db_after.
  destruct r; cbn [handle]; try done.
  - unfold auth_callback. destruct fetched as [g|]; [|done].
    destruct (upsert_user g d) eqn:Hup; [|done].
    simpl. eauto using wf_upsert_user.
  - unfold get_me. by destruct sess.
  - unfold get_settings. destruct sess; [done|]. by destruct (_ !! _).
  - unfold remove_ads, requireAuth. destruct sess; [|done].
    by apply wf_update_ads_removed.
  - unfold get_tasks, requireAuth. by destruct sess.
  - unfold post_task, requireAuth. destruct sess as [g|]; [|done].
    destruct title as [ti|]; [|done].
    destruct (insert_task _ _ _ _) as [[id d']|] eqn:Hins; [|done].
    cbn [fst snd]. eauto using wf_insert_task.
  - unfold delete_task_handler, requireAuth. destruct sess as [g|]; [|done].
    destruct (select_owned_task _ _ _); [|done].
    by apply wf_delete_task.
  - unfold post_subtask, requireAuth. destruct sess as [g|]; [|done].
    destruct (select_owned_task _ _ _); [|done].
    destruct title as [ti|]; [|done].
    destruct (insert_subtask _ _ _) as [[sid d']|] eqn:Hins; [|done].
    cbn [fst snd]. eauto using wf_insert_subtask.
  - unfold patch_subtask, requireAuth. destruct sess as [g|]; [|done].
    destruct (select_owned_subtask _ _ _); [|done].
    cbn [fst snd]. destruct (truthy _).
    + apply wf_set_subtasks; [| |done]; intros x; by case_decide.
    + apply wf_set_subtasks; [| |done]; intros x; by case_decide.
  - unfold get_photos, requireAuth. by destruct sess.
Qed.

Lemma wf_run l d : wf d → wf (run l d).
Proof.
  revert d. induction l as [|[[now sess] r] l IH]; intros d Hwf; [done|].
  simpl. apply IH. by apply wf_handle.
Qed.

Lemma demo_db_run : demo_db = run demo_script init_db.
Proof. vm_compute. reflexivity. Qed.

Lemma wf_demo_db : wf demo_db.
Proof. rewrite demo_db_run. apply wf_run, wf_init_db. Qed.

(** ** Looking rows up *)

Section lookup_by_rowid.
Context {A : Type} (id : A → Z).

(** In a table in rowid order, [WHERE id = ?] finds the row itself. *)
Lemma head_filter_rowid l x :
  rowid_order id l → x ∈ l → head (filter (λ y, id y = id x) l) = Some x.
Proof.
  unfold rowid_order. induction 1 as [|z l Hl IH Hz]; [by inv 1|].
  rewrite Forall_forall in Hz.
  intros [->|Hx]%elem_of_cons.
  - by rewrite filter_cons_True.
  - rewrite filter_cons_False; [auto|]. specialize (Hz _ Hx). lia.
Qed.

Lemma head_filter_rowid_None l i :
  head (filter (λ y, id y = i) l) = None ↔ ∀ y, y ∈ l → id y ≠ i.
Proof.
  rewrite head_None. split.
  - intros Hnil y Hy Heq.
    by apply (filter_nil_not_elem_of (λ y, id y = i) l y Hnil Heq).
  - intros Hall. apply elem_of_nil_inv.
    intros y [Hy Hin]%list_elem_of_filter. by eapply Hall.
Qed.
End lookup_by_rowid.

Lemma select_subtask_row d s :
  wf d → s ∈ db_subtasks d → select_subtask d (s_id s) = Some s.
Proof. intros Hwf. apply head_filter_rowid, Hwf. Qed.

(** The ownership lookup of DELETE and POST subtasks. *)
Lemma select_owned_task_Some d id uid t :
  select_owned_task d id uid = Some t →
  t ∈ db_tasks d ∧ t_id t = id ∧ t_user_id t = uid.
Proof.
  intros Hh%head_Some_elem_of. apply list_elem_of_filter in Hh. tauto.
Qed.

Lemma select_owned_task_None d id uid :
  select_owned_task d id uid = None ↔
  ∀ t, t ∈ db_tasks d → t_id t = id → t_user_id t ≠ uid.
Proof.
  unfold select_owned_task. rewrite head_None. split.
  - intros Hnil t Ht Hid Hu.
    by apply (filter_nil_not_elem_of _ _ t Hnil (conj Hid Hu)).
  - intros Hall. apply elem_of_nil_inv.
    intros t [[Hid Hu] Hin]%list_elem_of_filter. by eapply Hall.
Qed.

Lemma select_owned_task_row d t :
  t ∈ db_tasks d → is_Some (select_owned_task d (t_id t) (t_user_id t)).
Proof.
  intros Ht. destruct (select_owned_task _ _ _) eqn:Hsel; [by eexists|].
  rewrite select_owned_task_None in Hsel. by destruct (Hsel t).
Qed.

(** The ownership join of PATCH. *)
Lemma select_owned_subtask_Some d sid uid s :
  select_owned_subtask d sid uid = Some s →
  s ∈ db_subtasks d ∧ s_id s = sid ∧
  ∃ t, t ∈ db_tasks d ∧ s_task_id s = t_id t ∧ t_user_id t = uid.
Proof.
  intros Hh%head_Some_elem_of.
  apply list_elem_of_bind in Hh as (s' & Hh & Hs).
  apply list_elem_of_bind in Hh as (t & Hh & Ht).
  case_decide as Hc; [|by apply elem_of_nil in Hh].
  apply list_elem_of_singleton in Hh. subst s'.
  destruct Hc as (Htid & Hid & Hown). eauto 10.
Qed.

Lemma select_owned_subtask_row d s t :
  s ∈ db_subtasks d → t ∈ db_tasks d → s_task_id s = t_id t →
  is_Some (select_owned_subtask d (s_id s) (t_user_id t)).
Proof.
  intros Hs Ht Heq. apply head_is_Some. intros Hnil.
  assert (s ∈ @nil subtask_row) as Hin; [|by apply elem_of_nil in Hin].
  rewrite <-Hnil. apply list_elem_of_bind. exists s. split; [|done].
  apply list_elem_of_bind. exists t. split; [|done].
  rewrite decide_True by done. by apply list_elem_of_singleton.
Qed.

Lemma select_owned_subtask_None d sid uid :
  select_owned_subtask d sid uid = None →
  ∀ s t, s ∈ db_subtasks d → t ∈ db_tasks d → s_task_id s = t_id t →
         s_id s = sid → t_user_id t ≠ uid.
Proof.
  intros Hnone s t Hs Ht Heq <- <-.
  destruct (select_owned_subtask_row d s t) as [x Hx]; congruence.
Qed.

(** ** PATCH /api/subtasks/:id *)

Lemma truthy_upload filename : truthy (Some ("/uploads/" +:+ filename)) = true.
Proof. done. Qed.

(** The whole effect of a PATCH on a subtask of the session user: the hit
    row is rewritten, every other row and table stays, and the rewritten
    row is the answer. *)
Lemma patch_subtask_owned now completed file g d s t :
  wf d → s ∈ db_subtasks d → t ∈ db_tasks d →
  s_task_id s = t_id t → t_user_id t = g_id g →
  patch_subtask now (s_id s) completed file (Some g) d =
  (Json (JSubtask (Some (patched now completed file s))),
   set_subtasks
     ((λ x, if decide (s_id x = s_id s) then patched now completed file x
            else x) <$> db_subtasks d) d,
   Some g).
Proof.
  intros Hwf Hs Ht Htid Hown.
  unfold patch_subtask, requireAuth.
  destruct (select_owned_subtask_row d s t Hs Ht Htid) as [s0 Hsel].
  rewrite <-Hown, Hsel.
  set (f := λ x, if decide (s_id x = s_id s)
                 then patched now completed file x else x).
  assert (∀ x, s_id (f x) = s_id x) as Hfid.
  { intros x. unfold f, patched. case_decide; [|done]. by destruct file. }
  assert (select_subtask (set_subtasks (f <$> db_subtasks d) d) (s_id s)
          = Some (patched now completed file s)) as Hget.
  { unfold select_subtask. cbn [set_subtasks db_subtasks].
    replace (patched now completed file s) with (f s)
      by (unfold f; by rewrite decide_True).
    rewrite <-(Hfid s). apply head_filter_rowid.
    - apply rowid_order_fmap; [done|apply Hwf].
    - by apply list_elem_of_fmap_2. }
  destruct file as [filename|].
  - cbn [fmap option_fmap option_map]. rewrite truthy_upload.
    unfold update_subtask_photo. fold f.
    replace (_ <$> db_subtasks d) with (f <$> db_subtasks d); [by rewrite Hget|].
    done.
  - cbn [fmap option_fmap option_map truthy].
    unfold update_subtask_flag.
    replace (_ <$> db_subtasks d) with (f <$> db_subtasks d); [by rewrite Hget|].
    done.
Qed.

Lemma post_subtask_owned title g d t :
  wf d → t ∈ db_tasks d → t_user_id t = g_id g →
  let sid := next_rowid s_id (seq_subtasks d) (db_subtasks d) in
  post_subtask (t_id t) (Some title) (Some g) d =
  (Json (JSubtaskCreated sid (t_id t) title),
   mkDb (db_users d) (db_tasks d)
        (db_subtasks d ++ [mkSubtask sid (t_id t) title 0 None None])
        (db_settings d) (seq_tasks d) sid,
   Some g).
Proof.
  intros Hwf Ht Hown sid. unfold post_subtask, requireAuth.
  destruct (select_owned_task_row d t Ht) as [t0 Hsel].
  rewrite <-Hown, Hsel. unfold insert_subtask.
  rewrite decide_True; [done|]. by apply list_elem_of_fmap_2.
Qed.

(** With an image attached the row gets [completed = 1] and the image's
    URL, but the timestamp still follows the [completed] field. *)
Lemma patch_with_photo now completed filename g d s t :
  wf d → s ∈ db_subtasks d → t ∈ db_tasks d →
  s_task_id s = t_id t → t_user_id t = g_id g →
  ∃ s',
    resp (handle now (PatchSubtask (s_id s) completed (Some filename))
            (Some g) d) = Json (JSubtask (Some s')) ∧
    s_completed s' = 1 ∧
    s_photo_url s' = Some ("/uploads/" +:+ filename) ∧
    s_completed_at s' =
      if completed_requested completed then Some now else None.
Proof.
  intros Hwf Hs Ht Htid Hown. cbn [handle].
  rewrite (patch_subtask_owned _ _ _ g d s t) by done.
  eexists. split; [done|]. done.
Qed.

(** C1 (the code departs from it): a PATCH by the owner with an image
    attached and [completed=false] yields a record that is marked completed
    and carries the image's URL, but whose completion timestamp is NULL: the
    timestamp is not set regardless of the form field. *)
Theorem patch_photo_unrequested_has_no_timestamp :
  resp (handle 9900 (PatchSubtask 4 (Some "false") (Some "b.png"))
          (Some alice) demo_db)
  = Json (JSubtask (Some (mkSubtask 4 1 "step2" 1
                            (Some "/uploads/b.png") None))).
Proof. vm_compute. reflexivity. Qed.

Lemma completed_requested_true completed :
  completed = Some "true" ∨ completed = Some "1" →
  completed_requested completed = true.
Proof. intros Hc. by apply bool_decide_eq_true. Qed.

Lemma completed_requested_false completed :
  completed ≠ Some "true" → completed ≠ Some "1" →
  completed_requested completed = false.
Proof. intros H1 H2. apply bool_decide_eq_false. tauto. Qed.

Lemma wf_demo_db_fresh : wf demo_db_fresh.
Proof.
  assert (demo_db_fresh
          = db_after (handle 9800 (PostTask (Some "paint")) (Some bob) demo_db))
    as -> by (vm_compute; reflexivity).
  apply wf_handle, wf_demo_db.
Qed.

(** C6: a PATCH without an image on any subtask of a task of the session
    user stores and returns a record whose [completed] is the requested
    boolean: 1 with [completed_at] the current time when the form field is
    the text [true] or [1], and 0 with [completed_at] NULL for every other
    value of the field, also a missing one; so [completed_at] is non-NULL
    exactly when the requested boolean is true, and [photo_url] is left as
    it was.  And a subtask just created under a task of the session user
    (whether or not the task had subtasks before), patched with
    [completed=true] and no image, comes back with [completed = 1],
    [photo_url = NULL] and [completed_at] the current time. *)
Theorem patch_without_photo now now' completed title g d t :
  wf d → t ∈ db_tasks d → t_user_id t = g_id g →
  (∀ s, s ∈ db_subtasks d → s_task_id s = t_id t →
     ∃ s',
       let o := handle now (PatchSubtask (s_id s) completed None) (Some g) d in
       resp o = Json (JSubtask (Some s')) ∧
       select_subtask (db_after o) (s_id s) = Some s' ∧
       s_id s' = s_id s ∧
       s_photo_url s' = s_photo_url s ∧
       (completed = Some "true" ∨ completed = Some "1" →
          s_completed s' = 1 ∧ s_completed_at s' = Some now) ∧
       (completed ≠ Some "true" → completed ≠ Some "1" →
          s_completed s' = 0 ∧ s_completed_at s' = None) ∧
       (s_completed_at s' ≠ None ↔
          completed = Some "true" ∨ completed = Some "1")) ∧
  (∃ sid s',
     let created := handle now (PostSubtask (t_id t) (Some title)) (Some g) d in
     resp created = Json (JSubtaskCreated sid (t_id t) title) ∧
     resp (handle now' (PatchSubtask sid (Some "true") None) (Some g)
             (db_after created)) = Json (JSubtask (Some s')) ∧
     s_id s' = sid ∧ s_title s' = title ∧
     s_completed s' = 1 ∧ s_photo_url s' = None ∧
     s_completed_at s' = Some now').
Proof.
  intros Hwf Ht Hown. split.
  - intros s Hs Htid.
    exists (patched now completed None s). cbn [handle].
    rewrite (patch_subtask_owned _ _ _ g d s t) by done.
    unfold resp, db_after. cbn [fst snd].
    split; [done|]. split.
    { unfold select_subtask. cbn [set_subtasks db_subtasks].
      set (f := λ x, if decide (s_id x = s_id s)
                     then patched now completed None x else x).
      replace (patched now completed None s) with (f s)
        by (unfold f; by rewrite decide_True).
      assert (∀ x, s_id (f x) = s_id x) as Hfid
        by (intros x; unfold f; by case_decide).
      rewrite <-(Hfid s). apply head_filter_rowid.
      - apply rowid_order_fmap; [done|apply Hwf].
      - by apply list_elem_of_fmap_2. }
    unfold patched. cbn [s_id s_photo_url s_completed s_completed_at].
    split; [done|]. split; [done|].
    destruct (decide (completed = Some "true" ∨ completed = Some "1"))
      as [Hreq|Hnot].
    + rewrite (completed_requested_true completed Hreq).
      split; [done|]. split; [|done].
      intros H1 H2. destruct Hreq; done.
    + rewrite (completed_requested_false completed) by tauto.
      split; [done|]. split; [done|]. split; [done|tauto].
  - pose proof (wf_handle now (PostSubtask (t_id t) (Some title)) (Some g) d Hwf)
      as Hwf'.
    cbn [handle] in *.
    rewrite (post_subtask_owned title g d t) in * by done.
    unfold resp, db_after in *. cbn [fst snd] in *.
    set (sid := next_rowid s_id (seq_subtasks d) (db_subtasks d)) in *.
    set (new := mkSubtask sid (t_id t) title 0 None None) in *.
    set (d1 := mkDb _ _ _ _ _ _) in *.
    exists sid, (patched now' (Some "true") None new).
    split; [done|].
    change sid with (s_id new) at 1.
    rewrite (patch_subtask_owned _ _ _ g d1 new t); [done|done| | |done..].
    + apply elem_of_app. right. by apply list_elem_of_singleton.
    + done.
Qed.

Lemma patch_without_photo_witness :
  (∃ s',
     resp (handle 9900 (PatchSubtask 4 (Some "1") None) (Some alice) demo_db)
       = Json (JSubtask (Some s')) ∧
     s_completed s' = 1 ∧ s_completed_at s' = Some 9900) ∧
  (∃ s',
     resp (handle 9900 (PatchSubtask 1 (Some "false") None) (Some alice) demo_db)
       = Json (JSubtask (Some s')) ∧
     s_completed s' = 0 ∧ s_completed_at s' = None) ∧
  (∃ sid s',
     resp (handle 9900 (PostSubtask 4 (Some "prime")) (Some bob) demo_db_fresh)
       = Json (JSubtaskCreated sid 4 "prime") ∧
     resp (handle 9950 (PatchSubtask sid (Some "true") None) (Some bob)
             (db_after (handle 9900 (PostSubtask 4 (Some "prime")) (Some bob)
                          demo_db_fresh)))
       = Json (JSubtask (Some s')) ∧
     s_completed s' = 1 ∧ s_photo_url s' = None ∧
     s_completed_at s' = Some 9950).
Proof.
  split; [|split].
  - destruct (patch_without_photo 9900 9950 (Some "1") "step3" alice demo_db
                (mkTask 1 "u1" "run" 3)) as [Hpatch _].
    + apply wf_demo_db.
    + vm_compute. left.
    + reflexivity.
    + destruct (Hpatch (mkSubtask 4 1 "step2" 0 None None))
        as (s' & Hresp & _ & _ & _ & Hyes & _).
      * vm_compute. do 3 right. left.
      * reflexivity.
      * exists s'. split; [exact Hresp|]. apply Hyes. by right.
  - destruct (patch_without_photo 9900 9950 (Some "false") "step3" alice
                demo_db (mkTask 1 "u1" "run" 3)) as [Hpatch _].
    + apply wf_demo_db.
    + vm_compute. left.
    + reflexivity.
    + destruct (Hpatch (mkSubtask 1 1 "step1" 1 (Some "/uploads/a.png")
                          (Some 9500)))
        as (s' & Hresp & _ & _ & _ & _ & Hno & _).
      * vm_compute. left.
      * reflexivity.
      * exists s'. split; [exact Hresp|]. by apply Hno.
  - destruct (patch_without_photo 9900 9950 None "prime" bob demo_db_fresh
                (mkTask 4 "u2" "paint" 9)) as [_ Hfresh].
    + apply wf_demo_db_fresh.
    + vm_compute. do 3 right. left.
    + reflexivity.
    + destruct Hfresh as (sid & s' & Hcreated & Hresp & _ & _ & Hc & Hurl & Hat).
      exists sid, s'. repeat split; assumption.
Defined.

(** C7: a PATCH with [completed=false] and no image, on a subtask of the
    session user that has a stored photo URL, clears [completed_at] and
    leaves [photo_url] as it was. *)
Theorem uncomplete_keeps_photo now completed g d s t url :
  wf d → s ∈ db_subtasks d → t ∈ db_tasks d →
  s_task_id s = t_id t → t_user_id t = g_id g →
  s_photo_url s = Some url → completed_requested completed = false →
  ∃ s',
    let o := handle now (PatchSubtask (s_id s) completed None) (Some g) d in
    resp o = Json (JSubtask (Some s')) ∧
    s' ∈ db_subtasks (db_after o) ∧
    s_id s' = s_id s ∧
    s_completed s' = 0 ∧
    s_completed_at s' = None ∧
    s_photo_url s' = Some url.
Proof.
  intros Hwf Hs Ht Htid Hown Hurl Hreq.
  exists (patched now completed None s). cbn [handle].
  rewrite (patch_subtask_owned _ _ _ g d s t) by done.
  unfold resp, db_after. cbn [fst snd set_subtasks db_subtasks].
  split; [done|]. split.
  { apply list_elem_of_fmap. exists s. by rewrite decide_True. }
  unfold patched. rewrite Hreq. done.
Qed.

Lemma uncomplete_keeps_photo_witness :
  ∃ s',
    resp (handle 9900 (PatchSubtask 1 (Some "false") None) (Some alice)
            demo_db) = Json (JSubtask (Some s')) ∧
    s_completed_at s' = None ∧
    s_photo_url s' = Some "/uploads/a.png".
Proof.
  destruct (uncomplete_keeps_photo 9900 (Some "false") alice demo_db
              (mkSubtask 1 1 "step1" 1 (Some "/uploads/a.png") (Some 9500))
              (mkTask 1 "u1" "run" 3) "/uploads/a.png")
    as (s' & Hresp & _ & _ & _ & Hat & Hurl).
  - apply wf_demo_db.
  - vm_compute. left.
  - vm_compute. left.
  - reflexivity.
  - reflexivity.
  - reflexivity.
  - reflexivity.
  - exists s'. split; [exact Hresp|]. split; [exact Hat|exact Hurl].
Defined.

(** ** DELETE /api/tasks/:id *)

Lemma delete_task_owned g d t :
  t ∈ db_tasks d → t_user_id t = g_id g →
  delete_task_handler (t_id t) (Some g) d =
  (Json JSuccess, delete_task (t_id t) d, Some g).
Proof.
  intros Ht Hown. unfold delete_task_handler, requireAuth.
  destruct (select_owned_task_row d t Ht) as [t0 Hsel].
  by rewrite <-Hown, Hsel.
Qed.

Lemma delete_task_not_owned g d tid :
  (∀ t, t ∈ db_tasks d → t_id t = tid → t_user_id t ≠ g_id g) →
  delete_task_handler tid (Some g) d = (forbidden, d, Some g).
Proof.
  intros Hno%select_owned_task_None.
  unfold delete_task_handler, requireAuth. by rewrite Hno.
Qed.

(** C2: when the task with the requested id belongs to somebody other than
    the session user, or no task has that id, DELETE /api/tasks/:id answers
    403 Forbidden and the database is exactly what it was, so the task and
    its subtasks are still there. *)
Theorem delete_by_other_user_forbidden now tid g d :
  wf d →
  (∃ T, T ∈ db_tasks d ∧ t_id T = tid ∧ t_user_id T ≠ g_id g) ∨
  (∀ t, t ∈ db_tasks d → t_id t ≠ tid) →
  let o := handle now (DeleteTask tid) (Some g) d in
  resp o = Status 403 "Forbidden" ∧
  db_after o = d ∧
  session_after o = Some g ∧
  (∀ T, T ∈ db_tasks d → T ∈ db_tasks (db_after o) ∧
        select_subtasks_of (db_after o) (t_id T) = select_subtasks_of d (t_id T)).
Proof.
  intros Hwf Hcase o.
  assert (o = (forbidden, d, Some g)) as ->.
  { unfold o. cbn [handle]. apply delete_task_not_owned.
    intros t Ht Hid Hown. destruct Hcase as [(T & HT & HidT & Hother)|Hnone].
    - assert (t = T) as ->; [|done].
      eapply (rowid_order_inj t_id); [apply Hwf|done..|congruence].
    - by eapply Hnone. }
  done.
Qed.

Lemma delete_by_other_user_forbidden_witness :
  resp (handle 9900 (DeleteTask 1) (Some bob) demo_db) = Status 403 "Forbidden"
  ∧ db_after (handle 9900 (DeleteTask 1) (Some bob) demo_db) = demo_db.
Proof.
  destruct (delete_by_other_user_forbidden 9900 1 bob demo_db)
    as (Hresp & Hdb & _).
  - apply wf_demo_db.
  - left. exists (mkTask 1 "u1" "run" 3).
    split; [vm_compute; left|]. split; [reflexivity|]. discriminate.
  - split; [exact Hresp|exact Hdb].
Defined.

(** A subtask row either keeps its id in the table across a request, or the
    request was the owner's DELETE of its parent task. *)
Lemma subtask_survives now r sess d s :
  s ∈ db_subtasks d →
  (∃ s', s' ∈ db_subtasks (db_after (handle now r sess d)) ∧ s_id s' = s_id s)
  ∨ (∃ g t, sess = Some g ∧ r = DeleteTask (s_task_id s) ∧
            t ∈ db_tasks d ∧ t_id t = s_task_id s ∧ t_user_id t = g_id g).
Proof.
  intros Hs. unfold db_after.
  destruct r; cbn [handle]; try (left; by exists s).
  - left. exists s. split; [|done].
    unfold auth_callback. destruct fetched as [g|]; [|done].
    unfold upsert_user. by case_decide.
  - left. exists s. split; [|done]. unfold get_me. by destruct sess.
  - left. exists s. split; [|done].
    unfold get_settings. destruct sess; [done|]. by destruct (_ !! _).
  - left. exists s. split; [|done].
    unfold remove_ads, requireAuth. by destruct sess.
  - left. exists s. split; [|done].
    unfold get_tasks, requireAuth. by destruct sess.
  - left. exists s. split; [|done].
    unfold post_task, requireAuth, insert_task. destruct sess; [|done].
    destruct title; [|done]. by destruct (_ !! _).
  - unfold delete_task_handler, requireAuth. destruct sess as [g|].
    2:{ left. by exists s. }
    destruct (select_owned_task d id (g_id g)) as [t|] eqn:Hsel.
    2:{ left. by exists s. }
    apply select_owned_task_Some in Hsel as (Ht & Hid & Hown).
    destruct (decide (s_task_id s = id)) as [Heq|Hne].
    + right. exists g, t. subst id. by rewrite Heq.
    + left. exists s. split; [|done]. cbn [fst snd delete_task db_subtasks].
      by apply list_elem_of_filter.
  - left. exists s. split; [|done].
    unfold post_subtask, requireAuth, insert_subtask. destruct sess; [|done].
    destruct (select_owned_task _ _ _); [|done].
    destruct title; [|done]. case_decide; [|done].
    cbn [fst snd db_subtasks]. apply elem_of_app. by left.
  - unfold patch_subtask, requireAuth. destruct sess as [g|].
    2:{ left. by exists s. }
    destruct (select_owned_subtask _ _ _).
    2:{ left. by exists s. }
    cbn [fst snd]. left. destruct (truthy _).
    + eexists. split; [by apply list_elem_of_fmap_2|]. by case_decide.
    + eexists. split; [by apply list_elem_of_fmap_2|]. by case_decide.
  - left. exists s. split; [|done].
    unfold get_photos, requireAuth. by destruct sess.
Qed.

(** C3: the owner's DELETE /api/tasks/:id removes the task and every subtask
    whose [task_id] is that id (and nothing else); and whenever a request
    makes a subtask id disappear from the table, that request was the DELETE
    of the subtask's parent task by the task's owner. *)
Theorem delete_cascades_and_nothing_else_removes :
  (∀ now g d t,
     t ∈ db_tasks d → t_user_id t = g_id g →
     let o := handle now (DeleteTask (t_id t)) (Some g) d in
     resp o = Json JSuccess ∧
     (∀ t', t' ∈ db_tasks (db_after o) ↔ t' ∈ db_tasks d ∧ t_id t' ≠ t_id t) ∧
     (∀ s, s ∈ db_subtasks (db_after o) ↔
           s ∈ db_subtasks d ∧ s_task_id s ≠ t_id t) ∧
     select_subtasks_of (db_after o) (t_id t) = []) ∧
  (∀ now r sess d s,
     s ∈ db_subtasks d →
     (∀ s', s' ∈ db_subtasks (db_after (handle now r sess d)) →
            s_id s' ≠ s_id s) →
     ∃ g t, sess = Some g ∧ r = DeleteTask (s_task_id s) ∧
            t ∈ db_tasks d ∧ t_id t = s_task_id s ∧ t_user_id t = g_id g).
Proof.
  split.
  - intros now g d t Ht Hown o. unfold o. cbn [handle].
    rewrite delete_task_owned by done.
    unfold resp, db_after, select_subtasks_of.
    cbn [fst snd delete_task db_tasks db_subtasks].
    split; [done|]. split; [|split].
    + intros t'. rewrite list_elem_of_filter. tauto.
    + intros s. rewrite list_elem_of_filter. tauto.
    + apply elem_of_nil_inv. intros s.
      rewrite !list_elem_of_filter. tauto.
  - intros now r sess d s Hs Hgone.
    destruct (subtask_survives now r sess d s Hs) as [(s' & Hs' & Hid)|Hdel];
      [|done].
    by destruct (Hgone s' Hs').
Qed.

Lemma delete_cascades_witness :
  select_subtasks_of (db_after (handle 9900 (DeleteTask 1) (Some alice) demo_db)) 1
    = [] ∧
  ∃ g t, Some alice = Some g ∧ DeleteTask 1 = DeleteTask 1 ∧
         t ∈ db_tasks demo_db ∧ t_id t = 1 ∧ t_user_id t = g_id g.
Proof.
  split.
  - refine (proj2 (proj2 (proj2 (proj1 delete_cascades_and_nothing_else_removes
              9900 alice demo_db (mkTask 1 "u1" "run" 3) _ _)))).
    + vm_compute. left.
    + reflexivity.
  - refine (proj2 delete_cascades_and_nothing_else_removes
              9900 (DeleteTask 1) (Some alice) demo_db
              (mkSubtask 4 1 "step2" 0 None None) _ _).
    + vm_compute. do 3 right. left.
    + intros s' Hs'. vm_compute in Hs'.
      repeat (apply elem_of_cons in Hs' as [->|Hs']);
        [discriminate..|by apply elem_of_nil in Hs'].
Defined.

(** ** ORDER BY *)

Section order_by.
Context {A : Type}.

Global Instance desc_by_total (key : A → Z) : Total (desc_by key).
Proof. intros a b. unfold desc_by. lia. Qed.

Global Instance desc_by_trans (key : A → Z) : Transitive (desc_by key).
Proof. intros a b c. unfold desc_by. lia. Qed.

Global Instance desc_by_null_total (key : A → option Z) :
  Total (desc_by_null key).
Proof.
  intros a b. unfold desc_by_null.
  destruct (key a), (key b); simpl; auto. lia.
Qed.

Global Instance desc_by_null_trans (key : A → option Z) :
  Transitive (desc_by_null key).
Proof.
  intros a b c. unfold desc_by_null.
  destruct (key a), (key b), (key c); simpl; auto; try done. lia.
Qed.

Lemma elem_of_order_by_desc (key : A → Z) l x :
  x ∈ order_by_desc key l ↔ x ∈ l.
Proof. unfold order_by_desc. by rewrite merge_sort_Permutation. Qed.

Lemma elem_of_order_by_desc_null (key : A → option Z) l x :
  x ∈ order_by_desc_null key l ↔ x ∈ l.
Proof. unfold order_by_desc_null. by rewrite merge_sort_Permutation. Qed.
End order_by.

(** ** GET /api/tasks *)

(** C4: for an authenticated session GET /api/tasks answers with a list in
    which a task occurs exactly when it is a row of [tasks] whose [user_id]
    is the session user's id, each once, newest [created_at] first; every
    task comes with exactly the rows of [subtasks] that reference it, each
    once, in ascending id order. *)
Theorem get_tasks_owned_newest_first now g d :
  wf d →
  ∃ l,
    resp (handle now GetTasks (Some g) d) = Json (JTasks l) ∧
    (∀ t, t ∈ l.*1 ↔ t ∈ db_tasks d ∧ t_user_id t = g_id g) ∧
    NoDup l.*1 ∧
    StronglySorted (λ a b, t_created_at b ≤ t_created_at a) l.*1 ∧
    Forall (λ p,
      (∀ s, s ∈ p.2 ↔ s ∈ db_subtasks d ∧ s_task_id s = t_id p.1) ∧
      NoDup p.2 ∧
      StronglySorted (λ a b, s_id a < s_id b) p.2) l.
Proof.
  intros Hwf. cbn [handle]. unfold get_tasks, requireAuth, resp. cbn [fst].
  set (tasks := order_by_desc t_created_at
                  (filter (λ t, t_user_id t = g_id g) (db_tasks d))).
  eexists. split; [done|].
  rewrite <-list_fmap_compose.
  replace (fst ∘ (λ t, (t, select_subtasks_of d (t_id t))) <$> tasks)
    with tasks by (symmetry; apply list_fmap_id).
  split; [|split; [|split]].
  - intros t. unfold tasks.
    rewrite elem_of_order_by_desc, list_elem_of_filter. tauto.
  - unfold tasks, order_by_desc. rewrite merge_sort_Permutation.
    apply NoDup_filter, (rowid_order_NoDup t_id), Hwf.
  - unfold tasks, order_by_desc.
    apply (StronglySorted_merge_sort (desc_by t_created_at)).
  - apply Forall_fmap, Forall_forall. intros t _. cbn [fst snd compose].
    unfold select_subtasks_of. split; [|split].
    + intros s. rewrite list_elem_of_filter. tauto.
    + apply NoDup_filter, (rowid_order_NoDup s_id), Hwf.
    + apply (rowid_order_filter s_id), Hwf.
Qed.

Lemma get_tasks_owned_newest_first_witness :
  ∃ l, resp (handle 9900 GetTasks (Some alice) demo_db) = Json (JTasks l) ∧
       l.*1 = [mkTask 3 "u1" "swim" 5; mkTask 1 "u1" "run" 3].
Proof.
  destruct (get_tasks_owned_newest_first 9900 alice demo_db wf_demo_db)
    as (l & Hresp & _).
  exists l. split; [exact Hresp|].
  vm_compute in Hresp. injection Hresp as <-. reflexivity.
Defined.

(** ** GET /api/photos *)

Lemma elem_of_photo_rows d uid s title :
  (s, title) ∈ photo_rows d uid ↔
  s ∈ db_subtasks d ∧ s_photo_url s ≠ None ∧
  ∃ t, t ∈ db_tasks d ∧ t_id t = s_task_id s ∧ t_user_id t = uid ∧
       t_title t = title.
Proof.
  unfold photo_rows. rewrite list_elem_of_bind. split.
  - intros (s' & Hin & Hs').
    apply list_elem_of_bind in Hin as (t & Hin & Ht).
    case_decide as Hc; [|by apply elem_of_nil in Hin].
    apply list_elem_of_singleton in Hin. injection Hin as -> ->.
    destruct Hc as (Htid & Hown & Hurl). eauto 10.
  - intros (Hs & Hurl & t & Ht & Htid & Hown & Htitle).
    exists s. split; [|done]. apply list_elem_of_bind.
    exists t. split; [|done]. rewrite decide_True by done.
    apply list_elem_of_singleton. by rewrite Htitle.
Qed.

Lemma elem_of_photo_cell uid s t (p : subtask_row * string) :
  p ∈ (if decide (s_task_id s = t_id t ∧ t_user_id t = uid ∧
                  s_photo_url s ≠ None)
       then [(s, t_title t)] else []) →
  p = (s, t_title t) ∧ s_task_id s = t_id t.
Proof.
  destruct (decide _) as [[Htid _]|_]; [|by intros ?%elem_of_nil].
  by intros ->%list_elem_of_singleton.
Qed.

(** Every subtask joins with at most one task, so it shows up once. *)
Lemma NoDup_photo_rows d uid : wf d → NoDup (photo_rows d uid).*1.
Proof.
  intros Hwf. apply NoDup_fmap_2_strong.
  - intros [s a] [s' b] Ha Hb Heq. simpl in Heq. subst s'.
    apply elem_of_photo_rows in Ha as (_ & _ & t & Ht & Htid & _ & <-).
    apply elem_of_photo_rows in Hb as (_ & _ & t' & Ht' & Htid' & _ & <-).
    assert (t = t') as ->; [|done].
    eapply (rowid_order_inj t_id); [apply Hwf|done..|congruence].
  - unfold photo_rows. apply NoDup_bind.
    + intros s1 s2 p _ _ H1 H2.
      apply list_elem_of_bind in H1 as (t1 & [H1 _]%elem_of_photo_cell & _).
      apply list_elem_of_bind in H2 as (t2 & [H2 _]%elem_of_photo_cell & _).
      congruence.
    + intros s Hs. apply NoDup_bind.
      * intros t1 t2 p Ht1 Ht2 [_ H1]%elem_of_photo_cell
          [_ H2]%elem_of_photo_cell.
        eapply (rowid_order_inj t_id); [apply Hwf|done..|congruence].
      * intros t _. case_decide; [apply NoDup_singleton|apply NoDup_nil_2].
      * apply (rowid_order_NoDup t_id), Hwf.
    + apply (rowid_order_NoDup s_id), Hwf.
Qed.

(** C5: for an authenticated session GET /api/photos answers with a list in
    which a pair (subtask, title) occurs exactly when the subtask is a row
    with a non-NULL [photo_url] whose parent task belongs to the session user
    and has that title; each such subtask occurs once; and the list is in
    descending [completed_at] order (NULL below every time). *)
Theorem get_photos_owned_with_title now g d :
  wf d →
  ∃ l,
    resp (handle now GetPhotos (Some g) d) = Json (JPhotos l) ∧
    (∀ s title,
       (s, title) ∈ l ↔
       s ∈ db_subtasks d ∧ s_photo_url s ≠ None ∧
       ∃ t, t ∈ db_tasks d ∧ t_id t = s_task_id s ∧
            t_user_id t = g_id g ∧ t_title t = title) ∧
    NoDup l.*1 ∧
    StronglySorted
      (λ a b, null_le (s_completed_at b.1) (s_completed_at a.1)) l.
Proof.
  intros Hwf. cbn [handle]. unfold get_photos, requireAuth, resp. cbn [fst].
  eexists. split; [done|].
  unfold select_photos. split; [|split].
  - intros s title.
    by rewrite elem_of_order_by_desc_null, elem_of_photo_rows.
  - unfold order_by_desc_null. rewrite merge_sort_Permutation.
    by apply NoDup_photo_rows.
  - unfold order_by_desc_null.
    apply (StronglySorted_merge_sort
             (desc_by_null (λ p : subtask_row * string, s_completed_at p.1))).
Qed.

Lemma get_photos_owned_with_title_witness :
  ∃ l, resp (handle 9900 GetPhotos (Some alice) demo_db) = Json (JPhotos l) ∧
       l = [(mkSubtask 1 1 "step1" 1 (Some "/uploads/a.png") (Some 9500),
             "run")].
Proof.
  destruct (get_photos_owned_with_title 9900 alice demo_db wf_demo_db)
    as (l & Hresp & _).
  exists l. split; [exact Hresp|].
  vm_compute in Hresp. injection Hresp as <-. reflexivity.
Defined.

(** ** Settings *)

(** C8: with a session user GET /api/settings reports that user's own
    [ads_removed] flag, and two databases that agree on that user's row give
    the same answer; without a session it reports whether the settings row
    [ads_removed] holds ['true'], and two databases that agree on the
    settings table give the same answer whatever the users' flags are (a
    well-formed database always has that row). *)
Theorem get_settings_own_flag_or_global :
  (∀ now g d u,
     db_users d !! g_id g = Some u →
     resp (handle now GetSettings (Some g) d)
     = Json (JSettings (bool_decide (u_ads_removed u = 1)))) ∧
  (∀ now now' g d d',
     db_users d !! g_id g = db_users d' !! g_id g →
     resp (handle now GetSettings (Some g) d)
     = resp (handle now' GetSettings (Some g) d')) ∧
  (∀ now d v,
     db_settings d !! "ads_removed" = Some v →
     resp (handle now GetSettings None d)
     = Json (JSettings (bool_decide (v = "true")))) ∧
  (∀ now d,
     wf d →
     ∃ v, db_settings d !! "ads_removed" = Some v ∧
          resp (handle now GetSettings None d)
          = Json (JSettings (bool_decide (v = "true")))) ∧
  (∀ now now' d d',
     db_settings d = db_settings d' →
     resp (handle now GetSettings None d)
     = resp (handle now' GetSettings None d')).
Proof.
  unfold resp. cbn [handle]. unfold get_settings. split_and!.
  - intros _ g d u ->. done.
  - intros _ _ g d d' ->. done.
  - intros _ d v ->. done.
  - intros _ d [_ _ _ _ _ _ [v Hv]]. exists v. by rewrite Hv.
  - intros _ _ d d' ->. by destruct (_ !! _).
Qed.

Lemma get_settings_own_flag_or_global_witness :
  resp (handle 1 GetSettings (Some alice) demo_db_premium)
    = Json (JSettings true) ∧
  resp (handle 1 GetSettings (Some bob) demo_db_premium)
    = Json (JSettings false) ∧
  resp (handle 1 GetSettings None demo_db_premium)
    = Json (JSettings false) ∧
  resp (handle 1 GetSettings None demo_db)
    = resp (handle 2 GetSettings None demo_db_premium).
Proof.
  destruct get_settings_own_flag_or_global
    as (Hown & _ & Hglobal & _ & Hsame).
  split_and!.
  - apply (Hown 1 alice demo_db_premium
             (mkUser (Some "alice@example.org") (Some "Alice") None 1)).
    vm_compute. reflexivity.
  - apply (Hown 1 bob demo_db_premium
             (mkUser (Some "bob@example.org") (Some "Bob") None 0)).
    vm_compute. reflexivity.
  - apply (Hglobal 1 demo_db_premium "false"). vm_compute. reflexivity.
  - apply (Hsame 1 2 demo_db demo_db_premium). vm_compute. reflexivity.
Defined.




(** ** Login *)

Lemma upsert_user_existing g d u :
  db_users d !! g_id g = Some u →
  ¬ email_taken (db_users d) (g_id g) (g_email g) →
  upsert_user g d =
  Some (mkDb (<[g_id g := mkUser (g_email g) (g_name g) (g_picture g)
                                 (u_ads_removed u)]> (db_users d))
             (db_tasks d) (db_subtasks d) (db_settings d)
             (seq_tasks d) (seq_subtasks d)).
Proof.
  intros Hu Hfree. unfold upsert_user.
  rewrite decide_False by done. by rewrite Hu.
Qed.

(** The callback succeeds exactly when the upsert does not trip over the
    UNIQUE constraint on [email]. *)
Lemma auth_callback_success g sess d :
  resp (auth_callback (Some g) sess d) = Html ↔
  ¬ email_taken (db_users d) (g_id g) (g_email g).
Proof.
  unfold auth_callback, upsert_user, resp.
  case_decide; cbn [fst]; split; try done.
Qed.

(** C10: when the login callback succeeds for a profile whose id is already
    a row of [users], that row gets the profile's email, name and picture
    and keeps its [ads_removed] value; every other row and table is
    untouched, and the session now holds the profile. *)
Theorem login_keeps_ads_removed now g sess d u :
  db_users d !! g_id g = Some u →
  let o := handle now (AuthCallback (Some g)) sess d in
  resp o = Html →
  db_users (db_after o) !! g_id g
    = Some (mkUser (g_email g) (g_name g) (g_picture g) (u_ads_removed u)) ∧
  (∀ k, k ≠ g_id g → db_users (db_after o) !! k = db_users d !! k) ∧
  db_tasks (db_after o) = db_tasks d ∧
  db_subtasks (db_after o) = db_subtasks d ∧
  db_settings (db_after o) = db_settings d ∧
  session_after o = Some g.
Proof.
  intros Hu o Hok. unfold o in *. cbn [handle] in *.
  apply auth_callback_success in Hok.
  unfold auth_callback. rewrite (upsert_user_existing g d u) by done.
  unfold db_after, session_after.
  cbn [fst snd db_users db_tasks db_subtasks db_settings].
  split_and!; try done.
  - by rewrite lookup_insert_eq.
  - intros k Hk. by rewrite lookup_insert_ne.
Qed.

Lemma login_keeps_ads_removed_witness :
  db_users (db_after (handle 9950
     (AuthCallback (Some (mkGoogle "u1" (Some "alice@example.net")
                            (Some "Alice B.") (Some "a.jpg"))))
     None demo_db_premium)) !! "u1"
  = Some (mkUser (Some "alice@example.net") (Some "Alice B.")
                 (Some "a.jpg") 1).
Proof.
  refine (proj1 (login_keeps_ads_removed 9950
            (mkGoogle "u1" (Some "alice@example.net") (Some "Alice B.")
               (Some "a.jpg"))
            None demo_db_premium
            (mkUser (Some "alice@example.org") (Some "Alice") None 1) _ _)).
  - vm_compute. reflexivity.
  - vm_compute. reflexivity.
Defined.

(** * Further properties of the server *)

(** ** requireAuth *)

(** Every route behind [requireAuth] answers 401 Unauthorized to a request
    without a session user, and changes neither the database nor the
    session. *)
Theorem unauthorized_without_session now r d :
  protected r = true →
  handle now r None d = (Status 401 "Unauthorized", d, None).
Proof. by destruct r. Qed.

Lemma unauthorized_without_session_witness :
  handle 9900 (DeleteTask 1) None demo_db
  = (Status 401 "Unauthorized", demo_db, None).
Proof. apply (unauthorized_without_session 9900 (DeleteTask 1) demo_db). reflexivity. Defined.

(** After a logout every protected route is refused, whatever the session
    was before and whatever the database holds. *)
Theorem logout_then_unauthorized now now' r sess d :
  protected r = true →
  let out := handle now PostLogout sess d in
  db_after out = d ∧
  session_after out = None ∧
  handle now' r (session_after out) (db_after out)
  = (Status 401 "Unauthorized", d, None).
Proof.
  intros Hr. cbn [handle]. unfold db_after, session_after. cbn [fst snd].
  by rewrite unauthorized_without_session.
Qed.

Lemma logout_then_unauthorized_witness :
  handle 2 GetTasks
    (session_after (handle 1 PostLogout (Some alice) demo_db))
    (db_after (handle 1 PostLogout (Some alice) demo_db))
  = (Status 401 "Unauthorized", demo_db, None).
Proof.
  refine (proj2 (proj2 (logout_then_unauthorized 1 2 GetTasks (Some alice)
                          demo_db _))).
  reflexivity.
Defined.

(** ** What no request does *)

Lemma handle_settings now r sess d :
  db_settings (db_after (handle now r sess d)) = db_settings d.
Proof.
  unfold db_after. destruct r; cbn [handle]; try done.
  - unfold auth_callback, upsert_user. destruct fetched; [|done].
    by case_decide.
  - unfold get_me. by destruct sess.
  - unfold get_settings. destruct sess; [done|]. by destruct (_ !! _).
  - unfold remove_ads, requireAuth. by destruct sess.
  - unfold get_tasks, requireAuth. by destruct sess.
  - unfold post_task, requireAuth, insert_task. destruct sess; [|done].
    destruct title; [|done]. by destruct (_ !! _).
  - unfold delete_task_handler, requireAuth. destruct sess; [|done].
    by destruct (select_owned_task _ _ _).
  - unfold post_subtask, requireAuth, insert_subtask. destruct sess; [|done].
    destruct (select_owned_task _ _ _); [|done].
    destruct title; [|done]. by case_decide.
  - unfold patch_subtask, requireAuth. destruct sess; [|done].
    destruct (select_owned_subtask _ _ _); [|done].
    cbn [fst snd]. by destruct (truthy _).
  - unfold get_photos, requireAuth. by destruct sess.
Qed.

Lemma run_settings script d : db_settings (run script d) = db_settings d.
Proof.
  revert d. induction script as [|[[now sess] r] script IH]; intros d; [done|].
  simpl. by rewrite IH, handle_settings.
Qed.

(** No route writes the [settings] table: after any sequence of requests,
    by any sessions, a visitor without a session is still told that ads are
    not removed. *)
Theorem anonymous_settings_never_change script now :
  db_settings (run script init_db) = db_settings init_db ∧
  resp (handle now GetSettings None (run script init_db))
  = Json (JSettings false).
Proof.
  split; [apply run_settings|].
  cbn [handle]. unfold get_settings. by rewrite run_settings.
Qed.

(** ** What every reachable database satisfies *)

(** Whatever requests were served, by whatever sessions: the ownership chain
    is never dangling (every subtask has its parent task, every task has its
    user), and an id names one row only. *)
Theorem reachable_referential_integrity script :
  let d := run script init_db in
  (∀ s, s ∈ db_subtasks d →
        ∃ t, t ∈ db_tasks d ∧ t_id t = s_task_id s ∧
             is_Some (db_users d !! t_user_id t)) ∧
  (∀ t t', t ∈ db_tasks d → t' ∈ db_tasks d → t_id t = t_id t' → t = t') ∧
  (∀ s s', s ∈ db_subtasks d → s' ∈ db_subtasks d → s_id s = s_id s' → s = s').
Proof.
  intros d.
  destruct (wf_run script init_db wf_init_db)
    as [Hto Hso _ _ Htf Hsf _]. fold d in Hto, Hso, Htf, Hsf.
  rewrite Forall_forall in Htf. rewrite Forall_forall in Hsf. split_and!.
  - intros s Hs. destruct (Hsf s Hs) as (t & Ht & Heq). eauto.
  - intros t t'. apply (rowid_order_inj t_id), Hto.
  - intros s s'. apply (rowid_order_inj s_id), Hso.
Qed.

Lemma patched_row_ok now completed file s :
  subtask_row_ok s → subtask_row_ok (patched now completed file s).
Proof.
  intros (Hc & Hat & Hurl). unfold patched, subtask_row_ok.
  destruct file as [filename|]; cbn [s_completed s_completed_at s_photo_url].
  - split_and!; [by right|done|]. intros url [= <-]. by eexists.
  - destruct (completed_requested completed); split_and!; auto.
    by intros [? [=]].
Qed.

Lemma handle_subtask_rows now r sess d :
  Forall subtask_row_ok (db_subtasks d) →
  Forall subtask_row_ok (db_subtasks (db_after (handle now r sess d))).
Proof.
  intros Hok. unfold db_after. destruct r; cbn [handle]; try done.
  - unfold auth_callback, upsert_user. destruct fetched; [|done].
    by case_decide.
  - unfold get_me. by destruct sess.
  - unfold get_settings. destruct sess; [done|]. by destruct (_ !! _).
  - unfold remove_ads, requireAuth. by destruct sess.
  - unfold get_tasks, requireAuth. by destruct sess.
  - unfold post_task, requireAuth, insert_task. destruct sess; [|done].
    destruct title; [|done]. by destruct (_ !! _).
  - unfold delete_task_handler, requireAuth. destruct sess; [|done].
    destruct (select_owned_task _ _ _); [|done].
    cbn [fst snd delete_task db_subtasks].
    apply Forall_forall. intros x [_ Hx]%list_elem_of_filter.
    rewrite Forall_forall in Hok. auto.
  - unfold post_subtask, requireAuth, insert_subtask. destruct sess; [|done].
    destruct (select_owned_task _ _ _); [|done].
    destruct title; [|done]. case_decide; [|done].
    cbn [fst snd db_subtasks]. apply Forall_app. split; [done|].
    apply Forall_singleton. unfold subtask_row_ok.
    cbn [s_completed s_completed_at s_photo_url].
    split_and!; [by left|by intros [? [=]]|done].
  - unfold patch_subtask, requireAuth. destruct sess; [|done].
    destruct (select_owned_subtask _ _ _); [|done].
    cbn [fst snd]. destruct file as [filename|].
    + cbn [fmap option_fmap option_map]. rewrite truthy_upload.
      cbn [update_subtask_photo set_subtasks db_subtasks].
      apply Forall_fmap. eapply Forall_impl; [exact Hok|].
      intros x Hx. cbn [compose]. case_decide; [|done].
      apply (patched_row_ok now completed (Some filename) x Hx).
    + cbn [fmap option_fmap option_map truthy].
      cbn [update_subtask_flag set_subtasks db_subtasks].
      apply Forall_fmap. eapply Forall_impl; [exact Hok|].
      intros x Hx. cbn [compose]. case_decide; [|done].
      apply (patched_row_ok now completed None x Hx).
  - unfold get_photos, requireAuth. by destruct sess.
Qed.

(** Every subtask row of a reachable database has [completed] 0 or 1, has a
    completion time only if it is marked completed, and has a photo URL only
    of the form [/uploads/<stored file>]. *)
Theorem reachable_subtask_rows script :
  Forall subtask_row_ok (db_subtasks (run script init_db)).
Proof.
  assert (∀ d, Forall subtask_row_ok (db_subtasks d) →
               Forall subtask_row_ok (db_subtasks (run script d))) as Hrun.
  { induction script as [|[[now sess] r] script IH]; intros d Hd; [done|].
    simpl. by apply IH, handle_subtask_rows. }
  apply Hrun. constructor.
Qed.

Lemma upsert_user_emails g d d' :
  emails_unique (db_users d) → upsert_user g d = Some d' →
  emails_unique (db_users d').
Proof.
  intros Huniq Hup. unfold upsert_user in Hup.
  case_decide as Htaken; [done|]. injection Hup as <-.
  cbn [db_users].
  set (row := match db_users d !! g_id g with
              | Some u => _ | None => _ end).
  assert (u_email row = g_email g) as Hrow
    by (unfold row; by destruct (db_users d !! g_id g)).
  assert (∀ k v e, k ≠ g_id g → db_users d !! k = Some v →
                   u_email v = Some e → g_email g = Some e → False) as Hfree.
  { intros k v e Hk Hv He Hg. apply Htaken.
    apply map_Exists_lookup. exists k, v.
    split; [done|]. split; [done|]. rewrite Hg. split; [by eexists|done]. }
  intros i j u v e.
  rewrite !lookup_insert. repeat case_decide; subst.
  - done.
  - intros [= <-] Hv Hu He. rewrite Hrow in Hu. by destruct (Hfree j v e).
  - intros Hu [= <-] He Hv. rewrite Hrow in Hv. by destruct (Hfree i u e).
  - apply Huniq.
Qed.

Lemma handle_emails now r sess d :
  emails_unique (db_users d) →
  emails_unique (db_users (db_after (handle now r sess d))).
Proof.
  intros Huniq. unfold db_after. destruct r; cbn [handle]; try done.
  - unfold auth_callback. destruct fetched as [g|]; [|done].
    destruct (upsert_user g d) eqn:Hup; [|done].
    cbn [fst snd]. eauto using upsert_user_emails.
  - unfold get_me. by destruct sess.
  - unfold get_settings. destruct sess; [done|]. by destruct (_ !! _).
  - unfold remove_ads, requireAuth. destruct sess as [g|]; [|done].
    cbn [fst snd update_ads_removed db_users].
    intros i j u v e Hu Hv He He'.
    apply lookup_alter_Some in Hu as [(_ & u0 & Hu0 & Hu)|[_ Hu0]];
      apply lookup_alter_Some in Hv as [(_ & v0 & Hv0 & Hv)|[_ Hv0]];
      subst; cbn [u_email] in *; eapply Huniq; eauto.
  - unfold get_tasks, requireAuth. by destruct sess.
  - unfold post_task, requireAuth, insert_task. destruct sess; [|done].
    destruct title; [|done]. by destruct (_ !! _).
  - unfold delete_task_handler, requireAuth. destruct sess; [|done].
    by destruct (select_owned_task _ _ _).
  - unfold post_subtask, requireAuth, insert_subtask. destruct sess; [|done].
    destruct (select_owned_task _ _ _); [|done].
    destruct title; [|done]. by case_decide.
  - unfold patch_subtask, requireAuth. destruct sess; [|done].
    destruct (select_owned_subtask _ _ _); [|done].
    cbn [fst snd]. by destruct (truthy _).
  - unfold get_photos, requireAuth. by destruct sess.
Qed.

(** In a reachable database no two users share an email: a login that would
    give a row the email of another row is refused by the table. *)
Theorem reachable_emails_unique script :
  emails_unique (db_users (run script init_db)).
Proof.
  assert (∀ d, emails_unique (db_users d) →
               emails_unique (db_users (run script d))) as Hrun.
  { induction script as [|[[now sess] r] script IH]; intros d Hd; [done|].
    simpl. by apply IH, handle_emails. }
  apply Hrun. intros i j u v e Hu. unfold init_db in Hu.
  cbn [db_users] in Hu. by rewrite lookup_empty in Hu.
Qed.

Lemma reachable_emails_unique_witness : "u1" = "u1".
Proof.
  apply (reachable_emails_unique demo_script "u1" "u1"
           (mkUser (Some "alice@example.org") (Some "Alice") None 0)
           (mkUser (Some "alice@example.org") (Some "Alice") None 0)
           "alice@example.org"); vm_compute; reflexivity.
Defined.

(** ** More on the login callback *)

Lemma email_taken_row users id email :
  email_taken users id email ↔
  ∃ k u e, k ≠ id ∧ users !! k = Some u ∧ email = Some e ∧ u_email u = Some e.
Proof.
  unfold email_taken. rewrite map_Exists_lookup. split.
  - intros (k & u & Hk & Hne & [e ->] & He). eauto 10.
  - intros (k & u & e & Hne & Hk & -> & He). exists k, u. eauto.
Qed.

(** When the exchange with the identity provider throws, or the profile's
    email is already the email of a row with another id, the callback
    redirects to [/auth-error]: no row is written and the session stays as
    it was (no partial login). *)
Theorem login_failure_leaves_no_trace now fetched sess d :
  fetched = None ∨
  (∃ g k u e, fetched = Some g ∧ k ≠ g_id g ∧ db_users d !! k = Some u ∧
              g_email g = Some e ∧ u_email u = Some e) →
  handle now (AuthCallback fetched) sess d = (Redirect "/auth-error", d, sess).
Proof.
  intros [->|(g & k & u & e & -> & Hk & Hu & Hg & He)]; [done|].
  cbn [handle]. unfold auth_callback, upsert_user.
  rewrite decide_True; [done|]. apply email_taken_row. eauto 10.
Qed.

Lemma login_failure_leaves_no_trace_witness :
  handle 9900
    (AuthCallback (Some (mkGoogle "u3" (Some "alice@example.org")
                           (Some "Mallory") None)))
    None demo_db
  = (Redirect "/auth-error", demo_db, None).
Proof.
  apply login_failure_leaves_no_trace. right.
  exists (mkGoogle "u3" (Some "alice@example.org") (Some "Mallory") None),
    "u1", (mkUser (Some "alice@example.org") (Some "Alice") None 0),
    "alice@example.org".
  split; [reflexivity|]. split; [discriminate|].
  split; [vm_compute; reflexivity|]. split; reflexivity.
Defined.

(** A first login whose email no row with another id holds (see
    [email_taken_row]) creates the user's row
    from the profile with [ads_removed = 0], touches no other row or table,
    and starts the session; GET /api/auth/me then returns that row and
    GET /api/settings reports false. *)
Theorem first_login_creates_row now now' now'' g sess d :
  db_users d !! g_id g = None →
  ¬ email_taken (db_users d) (g_id g) (g_email g) →
  let o := handle now (AuthCallback (Some g)) sess d in
  let row := mkUser (g_email g) (g_name g) (g_picture g) 0 in
  resp o = Html ∧
  session_after o = Some g ∧
  db_users (db_after o) !! g_id g = Some row ∧
  (∀ k, k ≠ g_id g → db_users (db_after o) !! k = db_users d !! k) ∧
  db_tasks (db_after o) = db_tasks d ∧
  db_subtasks (db_after o) = db_subtasks d ∧
  resp (handle now' GetMe (session_after o) (db_after o))
    = Json (JUser (Some (g_id g, row))) ∧
  resp (handle now'' GetSettings (session_after o) (db_after o))
    = Json (JSettings false).
Proof.
  intros Hnew Hfree. cbv zeta. cbn [handle].
  unfold auth_callback, upsert_user.
  rewrite decide_False by done.
  rewrite Hnew. unfold resp, db_after, session_after, get_me, get_settings.
  cbn [fst snd db_users db_tasks db_subtasks].
  rewrite lookup_insert_eq. split_and!; try done.
  intros k Hk. by rewrite lookup_insert_ne.
Qed.

Lemma first_login_creates_row_witness :
  db_users (db_after (handle 9900
      (AuthCallback (Some (mkGoogle "u3" (Some "carol@example.org") None None)))
      None demo_db)) !! "u3"
  = Some (mkUser (Some "carol@example.org") None None 0).
Proof.
  refine (proj1 (proj2 (proj2 (first_login_creates_row 9900 9901 9902
            (mkGoogle "u3" (Some "carol@example.org") None None)
            None demo_db _ _)))).
  - vm_compute. reflexivity.
  - apply (proj1 (bool_decide_eq_false _)). vm_compute. reflexivity.
Defined.

Lemma handle_users_kept now r sess d k :
  is_Some (db_users d !! k) →
  is_Some (db_users (db_after (handle now r sess d)) !! k).
Proof.
  intros Hk. unfold db_after. destruct r; cbn [handle]; try done.
  - unfold auth_callback, upsert_user. destruct fetched as [g|]; [|done].
    case_decide; [done|]. cbn [fst snd db_users].
    rewrite lookup_insert. case_decide; [by eexists|done].
  - unfold get_me. by destruct sess.
  - unfold get_settings. destruct sess; [done|]. by destruct (db_settings d !! "ads_removed").
  - unfold remove_ads, requireAuth. destruct sess as [g|]; [|done].
    cbn [fst snd update_ads_removed db_users]. by rewrite lookup_alter_is_Some.
  - unfold get_tasks, requireAuth. by destruct sess.
  - unfold post_task, requireAuth, insert_task. destruct sess; [|done].
    destruct title; [|done]. by destruct (db_users d !! g_id _).
  - unfold delete_task_handler, requireAuth. destruct sess; [|done].
    by destruct (select_owned_task _ _ _).
  - unfold post_subtask, requireAuth, insert_subtask. destruct sess; [|done].
    destruct (select_owned_task _ _ _); [|done].
    destruct title; [|done]. by case_decide.
  - unfold patch_subtask, requireAuth. destruct sess; [|done].
    destruct (select_owned_subtask _ _ _); [|done].
    cbn [fst snd]. by destruct (truthy _).
  - unfold get_photos, requireAuth. by destruct sess.
Qed.

Lemma run_users_kept script d k :
  is_Some (db_users d !! k) → is_Some (db_users (run script d) !! k).
Proof.
  revert d. induction script as [|[[now sess] r] script IH]; intros d Hk;
    [done|].
  simpl. by apply IH, handle_users_kept.
Qed.

(** No request removes a row of [users]: an id that has a row keeps one
    after any sequence of requests by anybody.  In particular, after a
    successful login with a profile (which carries an id) the row of the
    session user exists from then on, whatever requests follow. *)
Theorem user_rows_are_never_removed script d :
  (∀ k, is_Some (db_users d !! k) → is_Some (db_users (run script d) !! k)) ∧
  (∀ now g sess,
     let o := handle now (AuthCallback (Some g)) sess d in
     resp o = Html →
     session_after o = Some g ∧
     is_Some (db_users (db_after o) !! g_id g) ∧
     is_Some (db_users (run script (db_after o)) !! g_id g)).
Proof.
  split; [intros k; apply run_users_kept|].
  intros now g sess o Hok.
  assert (session_after o = Some g ∧ is_Some (db_users (db_after o) !! g_id g))
    as [Hsess Hrow].
  { unfold o, resp, session_after, db_after in *. cbn [handle] in *.
    unfold auth_callback, upsert_user in *.
    case_decide; [done|]. cbn [fst snd db_users].
    rewrite lookup_insert_eq. split; [done|by eexists]. }
  split; [done|]. split; [done|]. by apply run_users_kept.
Qed.

Lemma user_rows_are_never_removed_witness :
  is_Some (db_users
             (run [(9960, Some bob, DeleteTask 2);
                   (9970, None, AuthCallback (Some bob));
                   (9980, Some alice, PostLogout)]
                (db_after (handle 9950 (AuthCallback (Some alice)) None
                             demo_db)))
           !! "u1").
Proof.
  refine (proj2 (proj2 (proj2 (user_rows_are_never_removed
            [(9960, Some bob, DeleteTask 2);
             (9970, None, AuthCallback (Some bob));
             (9980, Some alice, PostLogout)] demo_db) 9950 alice None _))).
  vm_compute. reflexivity.
Defined.

(** ** POST /api/tasks *)

Lemma post_task_known now title g d :
  is_Some (db_users d !! g_id g) →
  let id := next_rowid t_id (seq_tasks d) (db_tasks d) in
  post_task now (Some title) (Some g) d =
  (Json (JTaskCreated id title),
   mkDb (db_users d)
        (db_tasks d ++ [mkTask id (g_id g) title (current_timestamp now)])
        (db_subtasks d) (db_settings d) id (seq_subtasks d),
   Some g).
Proof.
  intros [u Hu] id. unfold post_task, requireAuth, insert_task. by rewrite Hu.
Qed.

Lemma wf_no_subtasks_beyond_seq d id :
  wf d → seq_tasks d < id → select_subtasks_of d id = [].
Proof.
  intros [_ _ Hts _ _ Hsf _] Hid. apply elem_of_nil_inv.
  intros s [Htid Hs]%list_elem_of_filter.
  rewrite Forall_forall in Hts. rewrite Forall_forall in Hsf.
  destruct (Hsf s Hs) as (t & Ht & Heq). specialize (Hts t Ht). lia.
Qed.

(** POST /api/tasks by a session whose user has a row appends one task,
    owned by the session user and stamped with the current second, under an
    id larger than every id in the table and than every id handed out
    before; nothing else changes; the new task has no subtasks and is part
    of what GET /api/tasks then answers. *)
Theorem post_task_creates now now' title g d :
  wf d → is_Some (db_users d !! g_id g) →
  let o := handle now (PostTask (Some title)) (Some g) d in
  ∃ id,
    let new := mkTask id (g_id g) title (current_timestamp now) in
    resp o = Json (JTaskCreated id title) ∧
    db_tasks (db_after o) = (db_tasks d ++ [new])%list ∧
    (∀ t, t ∈ db_tasks d → t_id t < id) ∧
    seq_tasks d < id ∧
    db_users (db_after o) = db_users d ∧
    db_subtasks (db_after o) = db_subtasks d ∧
    ∃ l, resp (handle now' GetTasks (Some g) (db_after o)) = Json (JTasks l) ∧
         (new, []) ∈ l.
Proof.
  intros Hwf Hg. cbv zeta. cbn [handle].
  rewrite post_task_known by done.
  unfold resp, db_after. cbn [fst snd db_tasks db_users db_subtasks].
  set (id := next_rowid t_id (seq_tasks d) (db_tasks d)).
  set (new := mkTask id (g_id g) title (current_timestamp now)).
  set (d' := mkDb _ _ _ _ _ _).
  assert (seq_tasks d < id) as Hseq by (unfold id, next_rowid; lia).
  exists id. split_and!; try done.
  - intros t Ht. pose proof (next_rowid_fresh t_id (seq_tasks d) (db_tasks d))
      as Hfresh. rewrite Forall_forall in Hfresh. by apply Hfresh.
  - unfold get_tasks, requireAuth. cbn [fst]. eexists. split; [done|].
    apply list_elem_of_fmap. exists new. split.
    + f_equal. symmetry. change id with (t_id new).
      unfold select_subtasks_of. cbn [d' db_subtasks].
      apply (wf_no_subtasks_beyond_seq d id Hwf Hseq).
    + apply elem_of_order_by_desc, list_elem_of_filter. split; [done|].
      cbn [d' db_tasks]. apply elem_of_app. right.
      by apply list_elem_of_singleton.
Qed.

Lemma post_task_creates_witness :
  ∃ id, resp (handle 9900 (PostTask (Some "paint")) (Some bob) demo_db)
        = Json (JTaskCreated id "paint") ∧ seq_tasks demo_db < id.
Proof.
  destruct (post_task_creates 9900 9901 "paint" bob demo_db)
    as (id & Hresp & _ & _ & Hseq & _).
  - apply wf_demo_db.
  - vm_compute. by eexists.
  - exists id. split; [exact Hresp|exact Hseq].
Defined.

(** POST /api/tasks without a title, or by a session whose user id is no
    row of [users], makes the INSERT throw (NOT NULL, foreign key): the
    answer is a server error and nothing is stored. *)
Theorem post_task_rejected now title g d :
  title = None ∨ db_users d !! g_id g = None →
  handle now (PostTask title) (Some g) d = (ServerError, d, Some g).
Proof.
  intros Hcase. cbn [handle]. unfold post_task, requireAuth, insert_task.
  destruct title as [ti|]; [|done].
  destruct Hcase as [Hnone|Hnone]; [done|by rewrite Hnone].
Qed.

Lemma post_task_rejected_witness :
  handle 9900 (PostTask (Some "x"))
    (Some (mkGoogle "ghost" None None None)) demo_db
  = (ServerError, demo_db, Some (mkGoogle "ghost" None None None)).
Proof.
  apply post_task_rejected. right. vm_compute. reflexivity.
Defined.

(** When the new task's second is later than the creation time of every
    task the user already has, GET /api/tasks lists it first, with an empty
    list of subtasks. *)
Theorem post_task_then_listed_first now now' title g d :
  wf d → is_Some (db_users d !! g_id g) →
  (∀ t, t ∈ db_tasks d → t_user_id t = g_id g →
        t_created_at t < current_timestamp now) →
  let o := handle now (PostTask (Some title)) (Some g) d in
  ∃ id l,
    resp o = Json (JTaskCreated id title) ∧
    resp (handle now' GetTasks (Some g) (db_after o))
    = Json (JTasks ((mkTask id (g_id g) title (current_timestamp now), [])
                    :: l)).
Proof.
  intros Hwf Hg Hnewest. cbv zeta. cbn [handle].
  rewrite post_task_known by done.
  unfold resp, db_after. cbn [fst snd].
  set (id := next_rowid t_id (seq_tasks d) (db_tasks d)).
  set (new := mkTask id (g_id g) title (current_timestamp now)).
  set (d' := mkDb _ _ _ _ _ _).
  assert (seq_tasks d < id) as Hseq by (unfold id, next_rowid; lia).
  unfold get_tasks, requireAuth. cbn [fst].
  set (own := filter (λ t, t_user_id t = g_id g) (db_tasks d')).
  assert (new ∈ order_by_desc t_created_at own) as Hin.
  { apply elem_of_order_by_desc, list_elem_of_filter. split; [done|].
    cbn [d' db_tasks]. apply elem_of_app. right.
    by apply list_elem_of_singleton. }
  pose proof (StronglySorted_merge_sort (desc_by t_created_at) own) as Hsorted.
  fold (order_by_desc t_created_at own) in Hsorted.
  destruct (order_by_desc t_created_at own) as [|x rest] eqn:Hsort;
    [by apply elem_of_nil in Hin|].
  assert (x = new) as ->.
  { apply elem_of_cons in Hin as [->|Hrest]; [done|].
    apply StronglySorted_cons in Hsorted as [Hx _].
    rewrite Forall_forall in Hx. specialize (Hx new Hrest).
    unfold desc_by in Hx. cbn [new t_created_at] in Hx.
    assert (x ∈ own) as Hxown.
    { apply (elem_of_order_by_desc t_created_at). rewrite Hsort. left. }
    apply list_elem_of_filter in Hxown as [Hxg Hxin].
    cbn [d' db_tasks] in Hxin.
    apply elem_of_app in Hxin as [Hold|Hnew]; [|by apply list_elem_of_singleton in Hnew].
    specialize (Hnewest x Hold Hxg). lia. }
  exists id, ((λ t, (t, select_subtasks_of d' (t_id t))) <$> rest).
  split; [done|]. rewrite fmap_cons.
  assert (select_subtasks_of d' (t_id new) = []) as ->; [|done].
  apply (wf_no_subtasks_beyond_seq d id Hwf Hseq).
Qed.

Lemma post_task_then_listed_first_witness :
  ∃ id l,
    resp (handle 9900 (PostTask (Some "paint")) (Some bob) demo_db)
    = Json (JTaskCreated id "paint") ∧
    resp (handle 9901 GetTasks (Some bob)
            (db_after (handle 9900 (PostTask (Some "paint")) (Some bob)
                         demo_db)))
    = Json (JTasks ((mkTask id "u2" "paint" 9, []) :: l)).
Proof.
  apply (post_task_then_listed_first 9900 9901 "paint" bob demo_db).
  - apply wf_demo_db.
  - vm_compute. by eexists.
  - intros t Ht Hown. vm_compute in Ht.
    repeat (apply elem_of_cons in Ht as [->|Ht]);
      [discriminate Hown|reflexivity|discriminate Hown
      |by apply elem_of_nil in Ht].
Defined.

(** ** AUTOINCREMENT *)

Lemma handle_rowids now r sess d :
  let d' := db_after (handle now r sess d) in
  seq_tasks d ≤ seq_tasks d' ∧
  seq_subtasks d ≤ seq_subtasks d' ∧
  (∀ t, t ∈ db_tasks d' → t ∈ db_tasks d ∨ seq_tasks d < t_id t) ∧
  (∀ s, s ∈ db_subtasks d' →
        (∃ s0, s0 ∈ db_subtasks d ∧ s_id s0 = s_id s) ∨
        seq_subtasks d < s_id s).
Proof.
  assert (seq_tasks d ≤ seq_tasks d ∧ seq_subtasks d ≤ seq_subtasks d ∧
          (∀ t, t ∈ db_tasks d → t ∈ db_tasks d ∨ seq_tasks d < t_id t) ∧
          (∀ s, s ∈ db_subtasks d →
                (∃ s0, s0 ∈ db_subtasks d ∧ s_id s0 = s_id s) ∨
                seq_subtasks d < s_id s)) as Hsame.
  { split_and!; [lia|lia|auto|]. intros s Hs. left. by exists s. }
  cbv zeta. unfold db_after. destruct r; cbn [handle]; try done.
  - unfold auth_callback, upsert_user. destruct fetched; [|done].
    by case_decide.
  - unfold get_me. by destruct sess.
  - unfold get_settings. destruct sess; [done|].
    by destruct (db_settings d !! "ads_removed").
  - unfold remove_ads, requireAuth. by destruct sess.
  - unfold get_tasks, requireAuth. by destruct sess.
  - unfold post_task, requireAuth, insert_task. destruct sess; [|done].
    destruct title; [|done]. destruct (db_users d !! g_id _); [|done].
    cbn [fst snd db_tasks db_subtasks seq_tasks seq_subtasks].
    split_and!; [unfold next_rowid; lia|lia| |by apply Hsame].
    intros t [Ht|Ht]%elem_of_app; [by left|].
    apply list_elem_of_singleton in Ht as ->. right.
    cbn [t_id]. unfold next_rowid. lia.
  - unfold delete_task_handler, requireAuth. destruct sess; [|done].
    destruct (select_owned_task _ _ _) as [t0|]; [|done].
    cbn [fst snd delete_task db_tasks db_subtasks seq_tasks seq_subtasks].
    split_and!; [lia|lia| |].
    + intros t [_ Ht]%list_elem_of_filter. by left.
    + intros x [_ Hx]%list_elem_of_filter. left. by exists x.
  - unfold post_subtask, requireAuth, insert_subtask. destruct sess; [|done].
    destruct (select_owned_task _ _ _) as [t0|]; [|done].
    destruct title; [|done]. case_decide; [|done].
    cbn [fst snd db_tasks db_subtasks seq_tasks seq_subtasks].
    split_and!; [lia|unfold next_rowid; lia|auto|].
    intros x [Hx|Hx]%elem_of_app; [left; by exists x|].
    apply list_elem_of_singleton in Hx as ->. right.
    cbn [s_id]. unfold next_rowid. lia.
  - unfold patch_subtask, requireAuth. destruct sess; [|done].
    destruct (select_owned_subtask _ _ _) as [s0'|]; [|done].
    cbn [fst snd].
    destruct (truthy _);
      cbn [update_subtask_photo update_subtask_flag set_subtasks
           db_tasks db_subtasks seq_tasks seq_subtasks];
      (split_and!; [lia|lia|auto|]);
      intros x (x0 & -> & Hx0)%list_elem_of_fmap; left; exists x0;
      (split; [done|]); by case_decide.
  - unfold get_photos, requireAuth. by destruct sess.
Qed.

Lemma run_rowids script d :
  seq_tasks d ≤ seq_tasks (run script d) ∧
  seq_subtasks d ≤ seq_subtasks (run script d) ∧
  (∀ t, t ∈ db_tasks (run script d) → t_id t ≤ seq_tasks d → t ∈ db_tasks d) ∧
  (∀ s, s ∈ db_subtasks (run script d) → s_id s ≤ seq_subtasks d →
        ∃ s0, s0 ∈ db_subtasks d ∧ s_id s0 = s_id s).
Proof.
  revert d. induction script as [|[[now sess] r] script IH]; intros d.
  { split_and!; [done|done|auto|]. intros s Hs _. by exists s. }
  simpl.
  destruct (handle_rowids now r sess d) as (Hst & Hss & Ht & Hs).
  destruct (IH (db_after (handle now r sess d))) as (IHst & IHss & IHt & IHs).
  cbv zeta in *. split_and!; [lia|lia| |].
  - intros t Hin Hid. destruct (Ht t) as [?|?]; [|done|lia].
    apply IHt; [done|lia].
  - intros s Hin Hid.
    destruct (IHs s Hin) as (s1 & Hs1 & Heq1); [lia|].
    destruct (Hs s1 Hs1) as [(s0 & Hs0 & Heq0)|?]; [|lia].
    exists s0. split; [done|congruence].
Qed.

(** Ids are never handed out twice: once its owner has deleted a task, no
    later sequence of requests ever produces a task with the deleted task's
    id, nor a subtask with the id of one of its subtasks. *)
Theorem deleted_ids_never_reused now g d t script :
  wf d → t ∈ db_tasks d → t_user_id t = g_id g →
  let d' := db_after (handle now (DeleteTask (t_id t)) (Some g) d) in
  (∀ t', t' ∈ db_tasks (run script d') → t_id t' ≠ t_id t) ∧
  (∀ s s', s ∈ db_subtasks d → s_task_id s = t_id t →
           s' ∈ db_subtasks (run script d') → s_id s' ≠ s_id s).
Proof.
  intros Hwf Ht Hown. cbv zeta. cbn [handle].
  rewrite delete_task_owned by done. unfold db_after. cbn [fst snd].
  destruct Hwf as [_ Hso Hts Hss _ _ _].
  rewrite Forall_forall in Hts. rewrite Forall_forall in Hss.
  destruct (run_rowids script (delete_task (t_id t) d))
    as (_ & _ & Hkeep_t & Hkeep_s).
  cbn [delete_task seq_tasks seq_subtasks db_tasks db_subtasks] in *.
  split.
  - intros t' Hin Heq.
    apply Hkeep_t in Hin; [|rewrite Heq; by apply Hts].
    apply list_elem_of_filter in Hin as [Hne _]. done.
  - intros s s' Hs Htid Hin Heq.
    destruct (Hkeep_s s' Hin) as (s0 & Hs0 & Hid0);
      [rewrite Heq; by apply Hss|].
    apply list_elem_of_filter in Hs0 as [Hne Hs0].
    assert (s0 = s) as ->; [|done].
    eapply (rowid_order_inj s_id); [exact Hso|done..|congruence].
Qed.

Lemma deleted_ids_never_reused_witness :
  Forall (λ t', t_id t' ≠ 1)
    (db_tasks
       (run [(9950, Some alice, PostTask (Some "run again"))]
          (db_after (handle 9900 (DeleteTask 1) (Some alice) demo_db)))).
Proof.
  apply Forall_forall.
  refine (proj1 (deleted_ids_never_reused 9900 alice demo_db
                   (mkTask 1 "u1" "run" 3)
                   [(9950, Some alice, PostTask (Some "run again"))] _ _ _)).
  - apply wf_demo_db.
  - vm_compute. left.
  - reflexivity.
Defined.

(** ** The subtask routes *)

(** POST /api/tasks/:id/subtasks on a task that is missing or belongs to
    somebody else, and PATCH /api/subtasks/:id on a subtask that is missing
    or whose parent task belongs to somebody else, answer 403 Forbidden and
    store nothing, whatever title, flag or image was sent. *)
Theorem subtask_routes_forbidden now g d :
  (∀ tid title,
     (∀ t, t ∈ db_tasks d → t_id t = tid → t_user_id t ≠ g_id g) →
     handle now (PostSubtask tid title) (Some g) d
     = (Status 403 "Forbidden", d, Some g)) ∧
  (∀ sid completed file,
     (∀ s t, s ∈ db_subtasks d → t ∈ db_tasks d → s_task_id s = t_id t →
             s_id s = sid → t_user_id t ≠ g_id g) →
     handle now (PatchSubtask sid completed file) (Some g) d
     = (Status 403 "Forbidden", d, Some g)).
Proof.
  split.
  - intros tid title Hno%select_owned_task_None. cbn [handle].
    unfold post_subtask, requireAuth. by rewrite Hno.
  - intros sid completed file Hno. cbn [handle].
    unfold patch_subtask, requireAuth.
    destruct (select_owned_subtask d sid (g_id g)) as [s|] eqn:Hsel; [|done].
    apply select_owned_subtask_Some in Hsel as (Hs & Hid & t & Ht & Htid & Hown).
    by destruct (Hno s t).
Qed.

Lemma subtask_routes_forbidden_witness :
  handle 9900 (PostSubtask 1 (Some "sneak")) (Some bob) demo_db
    = (Status 403 "Forbidden", demo_db, Some bob) ∧
  handle 9900 (PatchSubtask 77 (Some "true") (Some "x.png")) (Some bob) demo_db
    = (Status 403 "Forbidden", demo_db, Some bob).
Proof.
  destruct (subtask_routes_forbidden 9900 bob demo_db) as [Hpost Hpatch].
  split.
  - apply Hpost. intros t Ht Hid. vm_compute in Ht.
    repeat (apply elem_of_cons in Ht as [->|Ht]);
      [discriminate|discriminate Hid|discriminate|by apply elem_of_nil in Ht].
  - apply Hpatch. intros s t Hs _ _ Hid. vm_compute in Hs.
    repeat (apply elem_of_cons in Hs as [->|Hs]);
      [discriminate Hid..|by apply elem_of_nil in Hs].
Defined.

(** POST /api/tasks/:id/subtasks on a task of the session user appends one
    subtask with [completed = 0] and neither photo nor completion time, under
    an id larger than every id in the table; it becomes the last entry of
    its task's subtask list and no other task's list changes.  Without a
    title the INSERT throws and nothing is stored. *)
Theorem post_subtask_creates now title g d t :
  wf d → t ∈ db_tasks d → t_user_id t = g_id g →
  let o := handle now (PostSubtask (t_id t) (Some title)) (Some g) d in
  (∃ sid,
     let new := mkSubtask sid (t_id t) title 0 None None in
     resp o = Json (JSubtaskCreated sid (t_id t) title) ∧
     db_subtasks (db_after o) = (db_subtasks d ++ [new])%list ∧
     (∀ s, s ∈ db_subtasks d → s_id s < sid) ∧
     db_tasks (db_after o) = db_tasks d ∧
     db_users (db_after o) = db_users d ∧
     select_subtasks_of (db_after o) (t_id t)
       = (select_subtasks_of d (t_id t) ++ [new])%list ∧
     (∀ tid, tid ≠ t_id t →
        select_subtasks_of (db_after o) tid = select_subtasks_of d tid)) ∧
  handle now (PostSubtask (t_id t) None) (Some g) d = (ServerError, d, Some g).
Proof.
  intros Hwf Ht Hown. cbv zeta. cbn [handle]. split.
  - rewrite post_subtask_owned by done.
    unfold resp, db_after, select_subtasks_of.
    cbn [fst snd db_tasks db_users db_subtasks].
    eexists. split_and!; try done.
    + intros s Hs.
      pose proof (next_rowid_fresh s_id (seq_subtasks d) (db_subtasks d))
        as Hfresh. rewrite Forall_forall in Hfresh. by apply Hfresh.
    + rewrite filter_app. f_equal. by rewrite filter_cons_True.
    + intros tid Hne. rewrite filter_app.
      rewrite (filter_cons_False _ _ []) by (cbn [s_task_id]; congruence).
      by rewrite filter_nil, app_nil_r.
  - unfold post_subtask, requireAuth.
    destruct (select_owned_task_row d t Ht) as [t0 Hsel].
    by rewrite <-Hown, Hsel.
Qed.

Lemma post_subtask_creates_witness :
  select_subtasks_of
    (db_after (handle 9900 (PostSubtask 1 (Some "step3")) (Some alice) demo_db))
    1
  = [mkSubtask 1 1 "step1" 1 (Some "/uploads/a.png") (Some 9500);
     mkSubtask 4 1 "step2" 0 None None;
     mkSubtask 5 1 "step3" 0 None None].
Proof.
  destruct (post_subtask_creates 9900 "step3" alice demo_db
              (mkTask 1 "u1" "run" 3))
    as [(sid & Hresp & _ & _ & _ & _ & Hsel & _) _].
  - apply wf_demo_db.
  - vm_compute. left.
  - reflexivity.
  - cbn [t_id] in Hsel. rewrite Hsel.
    vm_compute in Hresp. injection Hresp as <-. reflexivity.
Defined.

(** A PATCH by the owner rewrites one row only: every other subtask row,
    and the tables of tasks and users, stay as they were; the rewritten row
    keeps its id, parent and title. *)
Theorem patch_changes_one_row now completed file g d s t :
  wf d → s ∈ db_subtasks d → t ∈ db_tasks d →
  s_task_id s = t_id t → t_user_id t = g_id g →
  let o := handle now (PatchSubtask (s_id s) completed file) (Some g) d in
  ∃ s',
    resp o = Json (JSubtask (Some s')) ∧
    s_id s' = s_id s ∧ s_task_id s' = s_task_id s ∧ s_title s' = s_title s ∧
    db_subtasks (db_after o)
      = (λ x, if decide (x = s) then s' else x) <$> db_subtasks d ∧
    length (db_subtasks (db_after o)) = length (db_subtasks d) ∧
    db_tasks (db_after o) = db_tasks d ∧
    db_users (db_after o) = db_users d.
Proof.
  intros Hwf Hs Ht Htid Hown. cbv zeta. cbn [handle].
  rewrite (patch_subtask_owned _ _ _ g d s t) by done.
  unfold resp, db_after. cbn [fst snd set_subtasks db_subtasks db_tasks db_users].
  exists (patched now completed file s).
  split_and!; try done; try (by destruct file).
  - apply Forall_fmap_ext_1, Forall_forall. intros x Hx.
    destruct (decide (x = s)) as [->|Hne].
    + by rewrite decide_True.
    + rewrite decide_False; [done|]. intros Heq. apply Hne.
      by eapply (rowid_order_inj s_id); [apply Hwf|..].
  - by rewrite length_fmap.
Qed.

Lemma patch_changes_one_row_witness :
  ∃ s',
    db_subtasks (db_after (handle 9900 (PatchSubtask 4 (Some "true") None)
                             (Some alice) demo_db))
    = (λ x, if decide (x = mkSubtask 4 1 "step2" 0 None None) then s' else x)
        <$> db_subtasks demo_db.
Proof.
  destruct (patch_changes_one_row 9900 (Some "true") None alice demo_db
              (mkSubtask 4 1 "step2" 0 None None) (mkTask 1 "u1" "run" 3))
    as (s' & _ & _ & _ & _ & Hrows & _).
  - apply wf_demo_db.
  - vm_compute. do 3 right. left.
  - vm_compute. left.
  - reflexivity.
  - reflexivity.
  - exists s'. exact Hrows.
Defined.

(** ** The gallery after a change *)

Lemma elem_of_select_photos d uid s title :
  (s, title) ∈ select_photos d uid ↔
  s ∈ db_subtasks d ∧ s_photo_url s ≠ None ∧
  ∃ t, t ∈ db_tasks d ∧ t_id t = s_task_id s ∧ t_user_id t = uid ∧
       t_title t = title.
Proof.
  unfold select_photos.
  by rewrite elem_of_order_by_desc_null, elem_of_photo_rows.
Qed.

(** A PATCH with an image attached puts the subtask into the owner's
    gallery: the record the PATCH returns is, together with the title of its
    parent task, an entry of what GET /api/photos answers next. *)
Theorem patch_with_photo_then_in_gallery now now' completed filename g d s t :
  wf d → s ∈ db_subtasks d → t ∈ db_tasks d →
  s_task_id s = t_id t → t_user_id t = g_id g →
  let o := handle now (PatchSubtask (s_id s) completed (Some filename))
             (Some g) d in
  ∃ s' l,
    resp o = Json (JSubtask (Some s')) ∧
    s_photo_url s' = Some ("/uploads/" +:+ filename) ∧
    resp (handle now' GetPhotos (Some g) (db_after o)) = Json (JPhotos l) ∧
    (s', t_title t) ∈ l.
Proof.
  intros Hwf Hs Ht Htid Hown. cbv zeta. cbn [handle].
  rewrite (patch_subtask_owned _ _ _ g d s t) by done.
  unfold resp, db_after, get_photos, requireAuth. cbn [fst snd].
  eexists _, _. split; [done|]. split; [done|]. split; [done|].
  apply elem_of_select_photos.
  cbn [set_subtasks db_subtasks db_tasks patched s_photo_url s_task_id].
  split_and!; [|done|by exists t].
  apply list_elem_of_fmap. exists s. by rewrite decide_True.
Qed.

Lemma patch_with_photo_then_in_gallery_witness :
  ∃ s' l,
    resp (handle 9900 (PatchSubtask 4 None (Some "b.png")) (Some alice) demo_db)
    = Json (JSubtask (Some s')) ∧
    s_photo_url s' = Some "/uploads/b.png" ∧
    resp (handle 9901 GetPhotos (Some alice)
            (db_after (handle 9900 (PatchSubtask 4 None (Some "b.png"))
                         (Some alice) demo_db)))
    = Json (JPhotos l) ∧
    (s', "run") ∈ l.
Proof.
  apply (patch_with_photo_then_in_gallery 9900 9901 None "b.png" alice demo_db
           (mkSubtask 4 1 "step2" 0 None None) (mkTask 1 "u1" "run" 3)).
  - apply wf_demo_db.
  - vm_compute. do 3 right. left.
  - vm_compute. left.
  - reflexivity.
  - reflexivity.
Defined.

Lemma tasks_with_subtasks_fst d (l : list task_row) :
  ((λ t, (t, select_subtasks_of d (t_id t))) <$> l).*1 = l.
Proof. rewrite <-list_fmap_compose. apply list_fmap_id. Qed.

Lemma select_subtasks_of_delete_other d tid tid' :
  tid' ≠ tid →
  select_subtasks_of (delete_task tid d) tid' = select_subtasks_of d tid'.
Proof.
  intros Hne. unfold select_subtasks_of. cbn [delete_task db_subtasks].
  apply list_filter_filter_l. intros s ->. done.
Qed.

(** After its owner deleted a task, GET /api/tasks answers (to every user)
    with the entries it answered before, each with the same list of
    subtasks, minus the entry of the deleted task; and GET /api/photos
    answers with the entries it answered before minus the photos of the
    deleted task's subtasks. *)
Theorem delete_then_gone_from_lists now now' g viewer d t :
  wf d → t ∈ db_tasks d → t_user_id t = g_id g →
  let d' := db_after (handle now (DeleteTask (t_id t)) (Some g) d) in
  ∃ tasks tasks' photos photos',
    resp (handle now' GetTasks (Some viewer) d) = Json (JTasks tasks) ∧
    resp (handle now' GetTasks (Some viewer) d') = Json (JTasks tasks') ∧
    resp (handle now' GetPhotos (Some viewer) d) = Json (JPhotos photos) ∧
    resp (handle now' GetPhotos (Some viewer) d') = Json (JPhotos photos') ∧
    (∀ x, x ∈ tasks'.*1 ↔ x ∈ tasks.*1 ∧ x ≠ t) ∧
    (∀ x subtasks, (x, subtasks) ∈ tasks' ↔ (x, subtasks) ∈ tasks ∧ x ≠ t) ∧
    (∀ s title, (s, title) ∈ photos' ↔
                (s, title) ∈ photos ∧ s_task_id s ≠ t_id t).
Proof.
  intros Hwf Ht Hown. cbv zeta. cbn [handle].
  rewrite delete_task_owned by done.
  unfold resp, db_after, get_tasks, get_photos, requireAuth. cbn [fst snd].
  eexists _, _, _, _. do 4 (split; [done|]).
  assert (∀ x, x ∈ db_tasks d → x ≠ t → t_id x ≠ t_id t) as Hother.
  { intros x Hx Hne Heq. apply Hne.
    by eapply (rowid_order_inj t_id); [apply Hwf|..]. }
  split; [|split].
  - intros x. rewrite !tasks_with_subtasks_fst.
    rewrite !elem_of_order_by_desc, !list_elem_of_filter.
    cbn [delete_task db_tasks]. rewrite list_elem_of_filter.
    split.
    + intros (Hv & Hne & Hx). split; [done|]. by intros ->.
    + intros ((Hv & Hx) & Hne). split; [done|]. split; [|done].
      by apply Hother.
  - intros x subtasks. rewrite !list_elem_of_fmap. split.
    + intros (y & Heq & Hy). injection Heq as -> ->.
      apply elem_of_order_by_desc, list_elem_of_filter in Hy as [Hv Hy].
      cbn [delete_task db_tasks] in Hy.
      apply list_elem_of_filter in Hy as [Hne Hy].
      split; [|by intros ->]. exists y. split.
      * by rewrite select_subtasks_of_delete_other.
      * apply elem_of_order_by_desc, list_elem_of_filter. done.
    + intros [(y & Heq & Hy) Hne]. injection Heq as -> ->.
      apply elem_of_order_by_desc, list_elem_of_filter in Hy as [Hv Hy].
      exists y. split.
      * rewrite select_subtasks_of_delete_other; [done|]. by apply Hother.
      * apply elem_of_order_by_desc, list_elem_of_filter. split; [done|].
        cbn [delete_task db_tasks]. apply list_elem_of_filter.
        split; [|done]. by apply Hother.
  - intros s title. rewrite !elem_of_select_photos.
    cbn [delete_task db_tasks db_subtasks].
    rewrite list_elem_of_filter. split.
    + intros ((Hne & Hs) & Hurl & t' & [_ Ht']%list_elem_of_filter & Hrest).
      split; [|done]. eauto 10.
    + intros ((Hs & Hurl & t' & Ht' & Htid & Hrest) & Hne).
      split; [done|]. split; [done|]. exists t'. split; [|done].
      apply list_elem_of_filter. split; [congruence|done].
Qed.

Lemma delete_then_gone_from_lists_witness :
  ∃ tasks tasks' photos photos',
    resp (handle 9901 GetTasks (Some alice) demo_db) = Json (JTasks tasks) ∧
    resp (handle 9901 GetTasks (Some alice)
            (db_after (handle 9900 (DeleteTask 1) (Some alice) demo_db)))
    = Json (JTasks tasks') ∧
    resp (handle 9901 GetPhotos (Some alice) demo_db) = Json (JPhotos photos) ∧
    resp (handle 9901 GetPhotos (Some alice)
            (db_after (handle 9900 (DeleteTask 1) (Some alice) demo_db)))
    = Json (JPhotos photos') ∧
    (∀ x, x ∈ tasks'.*1 ↔ x ∈ tasks.*1 ∧ x ≠ mkTask 1 "u1" "run" 3) ∧
    (∀ x subtasks, (x, subtasks) ∈ tasks' ↔
                   (x, subtasks) ∈ tasks ∧ x ≠ mkTask 1 "u1" "run" 3) ∧
    (∀ s title, (s, title) ∈ photos' ↔ (s, title) ∈ photos ∧ s_task_id s ≠ 1).
Proof.
  apply (delete_then_gone_from_lists 9900 9901 alice alice demo_db
           (mkTask 1 "u1" "run" 3)).
  - apply wf_demo_db.
  - vm_compute. left.
  - reflexivity.
Defined.

(** ** One user's requests and another user's data *)

Section list_facts.
Context {A B : Type}.

Lemma filter_ext_elem_of (P Q : A → Prop)
    `{!∀ x, Decision (P x), !∀ x, Decision (Q x)} (l : list A) :
  (∀ x, x ∈ l → P x ↔ Q x) → filter P l = filter Q l.
Proof.
  induction l as [|a l IH]; intros Hiff; [done|].
  rewrite !filter_cons.
  rewrite IH by (intros x Hx; apply Hiff; by right).
  apply decide_ext, Hiff. left.
Qed.

Lemma filter_fmap_fixed (Q : A → Prop) `{!∀ x, Decision (Q x)}
    (f : A → A) (l : list A) :
  (∀ x, x ∈ l → f x = x ∨ (¬ Q x ∧ ¬ Q (f x))) →
  filter Q (f <$> l) = filter Q l.
Proof.
  induction l as [|a l IH]; intros Hf; [done|].
  rewrite fmap_cons, !filter_cons.
  rewrite IH by (intros x Hx; apply Hf; by right).
  destruct (Hf a) as [->|[Hna Hnfa]]; [left|done|].
  by rewrite !decide_False.
Qed.

Lemma bind_filter_nil (P : A → Prop) `{!∀ x, Decision (P x)}
    (f : A → list B) (l : list A) :
  (∀ x, x ∈ l → ¬ P x → f x = []) → l ≫= f = filter P l ≫= f.
Proof.
  induction l as [|a l IH]; intros Hf; [done|].
  rewrite filter_cons, bind_cons.
  rewrite IH by (intros x Hx; apply Hf; by right).
  case_decide as Ha; [by rewrite bind_cons|].
  rewrite (Hf a); [done|left|done].
Qed.

Lemma bind_ext_elem_of (f g : A → list B) (l : list A) :
  (∀ x, x ∈ l → f x = g x) → l ≫= f = l ≫= g.
Proof.
  induction l as [|a l IH]; intros Hfg; [done|].
  rewrite !bind_cons, IH by (intros x Hx; apply Hfg; by right).
  rewrite (Hfg a); [done|left].
Qed.

Lemma bind_all_nil (f : A → list B) (l : list A) :
  (∀ x, x ∈ l → f x = []) → l ≫= f = [].
Proof.
  induction l as [|a l IH]; intros Hf; [done|].
  rewrite bind_cons, IH by (intros x Hx; apply Hf; by right).
  rewrite (Hf a); [done|left].
Qed.
End list_facts.

Lemma elem_of_own_task_ids d uid tid :
  tid ∈ t_id <$> own_tasks d uid ↔
  ∃ t, t ∈ db_tasks d ∧ t_id t = tid ∧ t_user_id t = uid.
Proof.
  unfold own_tasks. rewrite list_elem_of_fmap. split.
  - intros (t & -> & [Hown Ht]%list_elem_of_filter). eauto.
  - intros (t & Ht & <- & Hown). exists t. split; [done|].
    by apply list_elem_of_filter.
Qed.

(** The id of somebody else's task is not the id of one of mine. *)
Lemma foreign_task_not_own d uid t0 :
  wf d → t0 ∈ db_tasks d → t_user_id t0 ≠ uid →
  t_id t0 ∉ t_id <$> own_tasks d uid.
Proof.
  intros Hwf Ht0 Hne (t & Ht & Hid & Hown)%elem_of_own_task_ids.
  assert (t = t0) as ->; [|done].
  by eapply (rowid_order_inj t_id); [apply Hwf|..].
Qed.

(** GET /api/tasks reads the user's own rows only. *)
Lemma get_tasks_own g d :
  resp (get_tasks (Some g) d) =
  Json (JTasks
    ((λ t, (t, filter (λ s, s_task_id s = t_id t) (own_subtasks d (g_id g))))
       <$> order_by_desc t_created_at (own_tasks d (g_id g)))).
Proof.
  unfold get_tasks, requireAuth, resp. cbn [fst]. do 2 f_equal.
  apply Forall_fmap_ext_1, Forall_forall. intros t Ht.
  apply elem_of_order_by_desc in Ht. f_equal.
  unfold select_subtasks_of, own_subtasks. symmetry.
  apply list_filter_filter_l. intros s ->.
  by apply list_elem_of_fmap_2.
Qed.

(** GET /api/photos reads the user's own rows only. *)
Lemma photo_rows_own d uid :
  photo_rows d uid =
  (s ← own_subtasks d uid;
   t ← own_tasks d uid;
   if decide (s_task_id s = t_id t ∧ s_photo_url s ≠ None)
   then [(s, t_title t)] else []).
Proof.
  unfold photo_rows.
  assert (∀ s,
    (t ← db_tasks d;
     if decide (s_task_id s = t_id t ∧ t_user_id t = uid ∧ s_photo_url s ≠ None)
     then [(s, t_title t)] else [])
    = (t ← own_tasks d uid;
       if decide (s_task_id s = t_id t ∧ s_photo_url s ≠ None)
       then [(s, t_title t)] else [])) as Hinner.
  { intros s. unfold own_tasks.
    rewrite (bind_filter_nil (λ t, t_user_id t = uid)).
    - apply bind_ext_elem_of. intros t [Hown _]%list_elem_of_filter.
      apply decide_ext. tauto.
    - intros t _ Hne. apply decide_False. tauto. }
  rewrite (bind_ext_elem_of _ _ _ (λ s _, Hinner s)).
  unfold own_subtasks. apply bind_filter_nil.
  intros s _ Hnot. apply bind_all_nil.
  intros t Ht. apply decide_False. intros [Heq _]. apply Hnot.
  rewrite Heq. by apply list_elem_of_fmap_2.
Qed.

(** A request made without a session, or under the session of somebody
    else, leaves what a user owns untouched. *)
Lemma foreign_request_keeps_own now r sess uid d :
  wf d → (∀ g, sess = Some g → g_id g ≠ uid) →
  let d' := db_after (handle now r sess d) in
  own_tasks d' uid = own_tasks d uid ∧
  own_subtasks d' uid = own_subtasks d uid.
Proof.
  intros Hwf Hforeign. cbv zeta. unfold db_after.
  destruct r; cbn [handle]; try done.
  - unfold auth_callback, upsert_user. destruct fetched; [|done].
    by case_decide.
  - unfold get_me. by destruct sess.
  - unfold get_settings. destruct sess; [done|].
    by destruct (db_settings d !! "ads_removed").
  - unfold remove_ads, requireAuth. by destruct sess.
  - unfold get_tasks, requireAuth. by destruct sess.
  - (* POST /api/tasks *)
    unfold post_task, requireAuth, insert_task. destruct sess as [g|]; [|done].
    destruct title as [ti|]; [|done].
    destruct (db_users d !! g_id g); [|done]. cbn [fst snd].
    assert (∀ new_id seq,
      own_tasks (mkDb (db_users d)
                   (db_tasks d ++ [mkTask new_id (g_id g) ti
                                     (current_timestamp now)])
                   (db_subtasks d) (db_settings d) new_id seq) uid
      = own_tasks d uid) as Htasks.
    { intros new_id seq. unfold own_tasks. cbn [db_tasks].
      rewrite filter_app, filter_cons_False, filter_nil, app_nil_r; [done|].
      cbn [t_user_id]. by apply Hforeign. }
    split; [apply Htasks|].
    unfold own_subtasks. rewrite Htasks. done.
  - (* DELETE /api/tasks/:id *)
    unfold delete_task_handler, requireAuth. destruct sess as [g|]; [|done].
    destruct (select_owned_task d id (g_id g)) as [t0|] eqn:Hsel; [|done].
    apply select_owned_task_Some in Hsel as (Ht0 & <- & Hown0).
    assert (t_user_id t0 ≠ uid) as Hne
      by (rewrite Hown0; by apply Hforeign).
    pose proof (foreign_task_not_own d uid t0 Hwf Ht0 Hne) as Hnot.
    cbn [fst snd].
    assert (own_tasks (delete_task (t_id t0) d) uid = own_tasks d uid)
      as Htasks.
    { unfold own_tasks. cbn [delete_task db_tasks].
      rewrite list_filter_filter. apply filter_ext_elem_of.
      intros t Ht. split; [tauto|]. intros Hown. split; [done|].
      intros Hid. apply Hnot, elem_of_own_task_ids. by exists t. }
    split; [done|].
    unfold own_subtasks. rewrite Htasks. cbn [delete_task db_subtasks].
    apply list_filter_filter_l. intros s Hs Heq. apply Hnot. by rewrite <-Heq.
  - (* POST /api/tasks/:id/subtasks *)
    unfold post_subtask, requireAuth. destruct sess as [g|]; [|done].
    destruct (select_owned_task d id (g_id g)) as [t0|] eqn:Hsel; [|done].
    apply select_owned_task_Some in Hsel as (Ht0 & <- & Hown0).
    assert (t_user_id t0 ≠ uid) as Hne
      by (rewrite Hown0; by apply Hforeign).
    pose proof (foreign_task_not_own d uid t0 Hwf Ht0 Hne) as Hnot.
    unfold insert_subtask. destruct title as [ti|]; [|done].
    case_decide; [|done]. cbn [fst snd].
    split; [done|]. unfold own_subtasks, own_tasks. cbn [db_tasks db_subtasks].
    rewrite filter_app, filter_cons_False, filter_nil, app_nil_r; done.
  - (* PATCH /api/subtasks/:id *)
    unfold patch_subtask, requireAuth. destruct sess as [g|]; [|done].
    destruct (select_owned_subtask d id (g_id g)) as [s0|] eqn:Hsel; [|done].
    apply select_owned_subtask_Some in Hsel
      as (Hs0 & <- & t0 & Ht0 & Htid0 & Hown0).
    assert (t_user_id t0 ≠ uid) as Hne
      by (rewrite Hown0; by apply Hforeign).
    pose proof (foreign_task_not_own d uid t0 Hwf Ht0 Hne) as Hnot.
    cbn [fst snd].
    assert (∀ f : subtask_row → subtask_row,
      (∀ x, s_id x ≠ s_id s0 → f x = x) →
      (∀ x, s_task_id (f x) = s_task_id x) →
      own_tasks (set_subtasks (f <$> db_subtasks d) d) uid = own_tasks d uid ∧
      own_subtasks (set_subtasks (f <$> db_subtasks d) d) uid
      = own_subtasks d uid) as Hrewrite.
    { intros f Hother Hparent. split; [done|].
      unfold own_subtasks, own_tasks. cbn [set_subtasks db_tasks db_subtasks].
      apply filter_fmap_fixed. intros x Hx.
      destruct (decide (s_id x = s_id s0)) as [Hid|Hid]; [|left; auto].
      right. assert (x = s0) as ->
        by (eapply (rowid_order_inj s_id); [apply Hwf|done..]).
      rewrite Hparent, Htid0. done. }
    destruct (truthy _).
    + apply Hrewrite; intros x; [intros Hx|]; by case_decide.
    + apply Hrewrite; intros x; [intros Hx|]; by case_decide.
  - unfold get_photos, requireAuth. by destruct sess.
Qed.

(** User isolation: whatever request is made without a session or under the
    session of another user, the answers a user gets from GET /api/tasks and
    GET /api/photos are the same after it as before it. *)
Theorem other_users_requests_invisible now now' r sess me d :
  wf d → (∀ g, sess = Some g → g_id g ≠ g_id me) →
  let d' := db_after (handle now r sess d) in
  resp (handle now' GetTasks (Some me) d')
    = resp (handle now' GetTasks (Some me) d) ∧
  resp (handle now' GetPhotos (Some me) d')
    = resp (handle now' GetPhotos (Some me) d).
Proof.
  intros Hwf Hforeign d'.
  destruct (foreign_request_keeps_own now r sess (g_id me) d Hwf Hforeign)
    as [Htasks Hsubtasks]. fold d' in Htasks, Hsubtasks.
  cbn [handle]. split.
  - by rewrite !get_tasks_own, Htasks, Hsubtasks.
  - unfold get_photos, requireAuth, resp, select_photos. cbn [fst].
    by rewrite !photo_rows_own, Htasks, Hsubtasks.
Qed.

Lemma other_users_requests_invisible_witness :
  resp (handle 9901 GetTasks (Some alice)
          (db_after (handle 9900 (DeleteTask 1) (Some bob) demo_db)))
  = resp (handle 9901 GetTasks (Some alice) demo_db).
Proof.
  refine (proj1 (other_users_requests_invisible 9900 9901 (DeleteTask 1)
                   (Some bob) alice demo_db _ _)).
  - apply wf_demo_db.
  - intros g [= <-]. discriminate.
Defined.

(** * The client *)

(** ** Grouping the gallery by date *)

Lemma elem_of_first_seen l x : x ∈ first_seen l ↔ x ∈ l.
Proof.
  induction l as [|a l IH]; [done|]. cbn [first_seen].
  rewrite !elem_of_cons, list_elem_of_filter, IH.
  destruct (decide (x = a)); tauto.
Qed.

Lemma NoDup_first_seen l : NoDup (first_seen l).
Proof.
  induction l as [|a l IH]; cbn [first_seen]; constructor.
  - rewrite list_elem_of_filter. tauto.
  - by apply NoDup_filter.
Qed.

Lemma first_seen_snoc l x :
  first_seen (l ++ [x]) =
  if decide (x ∈ l) then first_seen l else (first_seen l ++ [x])%list.
Proof.
  induction l as [|a l IH]; [done|].
  rewrite <-app_comm_cons. cbn [first_seen]. rewrite IH.
  destruct (decide (x = a)) as [->|Hne].
  - rewrite (decide_True (P := a ∈ a :: l)) by left.
    case_decide; [done|].
    rewrite filter_app, filter_cons_False, filter_nil, app_nil_r; [done|].
    by intros Hne.
  - destruct (decide (x ∈ l)) as [Hin|Hnin].
    + rewrite decide_True by (by right). done.
    + rewrite decide_False by (rewrite elem_of_cons; tauto).
      rewrite filter_app, filter_cons_True by done. done.
Qed.

Section gallery.
Variable date_label : option Z → string.

Lemma groupedPhotos_snoc photos photo :
  groupedPhotos date_label (photos ++ [photo]) =
  push_photo (photo_label date_label photo) photo
    (groupedPhotos date_label photos).
Proof. unfold groupedPhotos. by rewrite foldl_snoc. Qed.

Lemma push_photo_groups (F : string → list photo_entry) date photo keys :
  NoDup keys → (date ∉ keys → F date = []) →
  push_photo date photo ((λ k, (k, F k)) <$> keys) =
  (λ k, (k, (F k ++ if decide (k = date) then [photo] else [])%list))
    <$> (if decide (date ∈ keys) then keys else (keys ++ [date])%list).
Proof.
  induction keys as [|k0 keys IH]; intros Hnodup Hnew.
  - rewrite decide_False by apply not_elem_of_nil.
    cbn. rewrite decide_True by done. rewrite Hnew by apply not_elem_of_nil.
    done.
  - apply NoDup_cons in Hnodup as [Hk0 Hnodup].
    rewrite fmap_cons. cbn [push_photo].
    destruct (decide (k0 = date)) as [->|Hne].
    + rewrite (decide_True (P := date ∈ date :: keys)) by left.
      rewrite fmap_cons, decide_True by done. f_equal.
      apply Forall_fmap_ext_1, Forall_forall. intros k Hk.
      rewrite decide_False by (by intros ->). by rewrite app_nil_r.
    + rewrite IH; [|done|].
      2:{ intros Hnot. apply Hnew. rewrite elem_of_cons. intros [Heq|Hin]; auto. }
      destruct (decide (date ∈ keys)) as [Hin|Hnin].
      * rewrite (decide_True (P := date ∈ k0 :: keys)) by (by right).
        rewrite fmap_cons, decide_False, app_nil_r by done. done.
      * rewrite (decide_False (P := date ∈ k0 :: keys))
          by (rewrite elem_of_cons; intros [Heq|Hin]; auto).
        rewrite <-app_comm_cons, fmap_cons, decide_False, app_nil_r by done.
        done.
Qed.
Lemma groupedPhotos_closed photos :
  groupedPhotos date_label photos =
  (λ k, (k, filter (λ p, photo_label date_label p = k) photos))
    <$> first_seen (photo_label date_label <$> photos).
Proof.
  induction photos as [|photo photos IH] using rev_ind; [done|].
  rewrite groupedPhotos_snoc, IH.
  rewrite push_photo_groups.
  - rewrite fmap_snoc, first_seen_snoc.
    rewrite (decide_ext _ _ _ _
               (elem_of_first_seen (photo_label date_label <$> photos)
                  (photo_label date_label photo))).
    apply Forall_fmap_ext_1, Forall_forall. intros k _.
    rewrite filter_app, filter_singleton; [|exact []].
    f_equal. f_equal. apply decide_ext. split; by intros ->.
  - apply NoDup_first_seen.
  - rewrite elem_of_first_seen. intros Hnot. apply elem_of_nil_inv.
    intros p [Hp Hin]%list_elem_of_filter. apply Hnot.
    rewrite <-Hp. by apply list_elem_of_fmap_2.
Qed.

Lemma dates_first_seen photos :
  dates date_label photos = first_seen (photo_label date_label <$> photos).
Proof.
  unfold dates. rewrite groupedPhotos_closed, <-list_fmap_compose.
  apply list_fmap_id.
Qed.

Lemma push_photo_concat date photo acc :
  concat (push_photo date photo acc).*2 ≡ₚ concat acc.*2 ++ [photo].
Proof.
  induction acc as [|[k ps] acc IH]; [done|].
  cbn [push_photo]. case_decide.
  - rewrite !fmap_cons. cbn [snd concat].
    rewrite <-!(assoc_L (++)). f_equiv. apply Permutation_app_comm.
  - rewrite !fmap_cons. cbn [snd concat]. rewrite IH.
    by rewrite (assoc_L (++)).
Qed.

(** The gallery shows one group per date label, in the order in which the
    labels first occur in the photo list; the group of a label holds exactly
    the photos with that label, in list order, and is never empty; so every
    photo is shown once, under its own date. *)
Theorem gallery_groups_by_date photos :
  dates date_label photos = first_seen (photo_label date_label <$> photos) ∧
  NoDup (dates date_label photos) ∧
  groupedPhotos date_label photos
    = (λ k, (k, filter (λ p, photo_label date_label p = k) photos))
        <$> dates date_label photos ∧
  (∀ k ps, (k, ps) ∈ groupedPhotos date_label photos → ps ≠ []) ∧
  concat (groupedPhotos date_label photos).*2 ≡ₚ photos.
Proof.
  split_and!.
  - apply dates_first_seen.
  - rewrite dates_first_seen. apply NoDup_first_seen.
  - rewrite dates_first_seen. apply groupedPhotos_closed.
  - intros k ps. rewrite groupedPhotos_closed.
    intros (k' & Heq & Hk)%list_elem_of_fmap. injection Heq as -> ->.
    apply elem_of_first_seen, list_elem_of_fmap in Hk as (p & -> & Hp).
    intros Hnil.
    by apply (filter_nil_not_elem_of _ _ p Hnil eq_refl).
  - induction photos as [|photo photos IH] using rev_ind; [done|].
    rewrite groupedPhotos_snoc, push_photo_concat. by f_equiv.
Qed.

(** The first group shown is the one of the first photo of the list. *)
Lemma dates_head photo photos :
  head (dates date_label (photo :: photos))
  = Some (photo_label date_label photo).
Proof. by rewrite dates_first_seen. Qed.
End gallery.

(** ** Local updates of the task list *)

Lemma filter_fmap_comm {A} (P : A → Prop) `{!∀ x, Decision (P x)}
    (f : A → A) (l : list A) :
  (∀ x, x ∈ l → P (f x) ↔ P x) → filter P (f <$> l) = f <$> filter P l.
Proof.
  induction l as [|a l IH]; intros Hf; [done|].
  rewrite fmap_cons, !filter_cons.
  rewrite IH by (intros x Hx; apply Hf; by right).
  rewrite (decide_ext _ _ _ _ (Hf a (list_elem_of_here a l))).
  by case_decide.
Qed.

(** After a successful toggle the client does not fetch the task list
    again: it replaces the subtask with the record the PATCH returned.  The
    list it obtains is the list GET /api/tasks would answer. *)
Theorem toggle_update_matches_refetch now now' completed file g d s t :
  wf d → s ∈ db_subtasks d → t ∈ db_tasks d →
  s_task_id s = t_id t → t_user_id t = g_id g →
  let o := handle now (PatchSubtask (s_id s) completed file) (Some g) d in
  ∃ tasks updatedSubtask,
    resp (handle now' GetTasks (Some g) d) = Json (JTasks tasks) ∧
    resp o = Json (JSubtask (Some updatedSubtask)) ∧
    resp (handle now' GetTasks (Some g) (db_after o))
    = Json (JTasks (toggleSubtask_tasks (s_id s) updatedSubtask tasks)).
Proof.
  intros Hwf Hs Ht Htid Hown. cbv zeta. cbn [handle].
  rewrite (patch_subtask_owned _ _ _ g d s t) by done.
  unfold resp, db_after, get_tasks, requireAuth. cbn [fst snd].
  eexists _, _. split; [done|]. split; [done|].
  do 2 f_equal. unfold toggleSubtask_tasks.
  cbn [set_subtasks db_tasks]. rewrite <-list_fmap_compose.
  apply Forall_fmap_ext_1, Forall_forall. intros t' _. cbn [compose fst snd].
  f_equal. unfold select_subtasks_of. cbn [set_subtasks db_subtasks].
  rewrite filter_fmap_comm.
  - apply Forall_fmap_ext_1, Forall_forall.
    intros x [_ Hx]%list_elem_of_filter.
    case_decide as Hid; [|done].
    assert (x = s) as ->; [|done].
    by eapply (rowid_order_inj s_id); [apply Hwf|..].
  - intros x _. case_decide; [|done]. by destruct file.
Qed.

Lemma toggle_update_matches_refetch_witness :
  ∃ tasks updatedSubtask,
    resp (handle 9901 GetTasks (Some alice) demo_db) = Json (JTasks tasks) ∧
    resp (handle 9900 (PatchSubtask 4 (Some "true") None) (Some alice) demo_db)
    = Json (JSubtask (Some updatedSubtask)) ∧
    resp (handle 9901 GetTasks (Some alice)
            (db_after (handle 9900 (PatchSubtask 4 (Some "true") None)
                         (Some alice) demo_db)))
    = Json (JTasks (toggleSubtask_tasks 4 updatedSubtask tasks)).
Proof.
  apply (toggle_update_matches_refetch 9900 9901 (Some "true") None alice
           demo_db (mkSubtask 4 1 "step2" 0 None None) (mkTask 1 "u1" "run" 3)).
  - apply wf_demo_db.
  - vm_compute. do 3 right. left.
  - vm_compute. left.
  - reflexivity.
  - reflexivity.
Defined.

Lemma filter_fmap_pre {A B} (P : B → Prop) `{!∀ y, Decision (P y)}
    (f : A → B) (l : list A) :
  filter P (f <$> l) = f <$> filter (λ x, P (f x)) l.
Proof.
  induction l as [|a l IH]; [done|].
  rewrite fmap_cons, !filter_cons, IH. by case_decide.
Qed.

Lemma StronglySorted_filter {A} (R : relation A) (P : A → Prop)
    `{!∀ x, Decision (P x)} (l : list A) :
  StronglySorted R l → StronglySorted R (filter P l).
Proof.
  induction 1 as [|x l Hl IH Hx]; [constructor|].
  rewrite filter_cons. case_decide; [|done].
  constructor; [done|].
  rewrite Forall_forall in Hx. apply Forall_forall.
  intros y [_ Hy]%list_elem_of_filter. auto.
Qed.

(** After a DELETE the client drops the task from its list instead of
    fetching the list again.  When the task was the user's (so the DELETE
    succeeded) and provided no two of the user's tasks
    were created within the same second (only then does the order of the
    server's answer not depend on how it breaks ties), the list it obtains
    is the list GET /api/tasks would answer. *)
Theorem delete_update_matches_refetch now now' g d t :
  wf d → t ∈ db_tasks d → t_user_id t = g_id g →
  (∀ t1 t2, t1 ∈ db_tasks d → t2 ∈ db_tasks d →
            t_user_id t1 = g_id g → t_user_id t2 = g_id g →
            t_created_at t1 = t_created_at t2 → t1 = t2) →
  let o := handle now (DeleteTask (t_id t)) (Some g) d in
  ∃ tasks,
    resp (handle now' GetTasks (Some g) d) = Json (JTasks tasks) ∧
    resp o = Json JSuccess ∧
    resp (handle now' GetTasks (Some g) (db_after o))
    = Json (JTasks (deleteTask_tasks (t_id t) tasks)).
Proof.
  intros Hwf Ht Hown Hdistinct. cbv zeta. cbn [handle].
  rewrite delete_task_owned by done.
  unfold resp, db_after, get_tasks, requireAuth. cbn [fst snd].
  eexists. split; [done|]. split; [done|]. do 2 f_equal.
  unfold deleteTask_tasks. rewrite filter_fmap_pre. cbn [fst].
  set (own := filter (λ x, t_user_id x = g_id g) (db_tasks d)).
  set (own' := filter (λ x, t_user_id x = g_id g)
                 (db_tasks (delete_task (t_id t) d))).
  assert (order_by_desc t_created_at own'
          = filter (λ x, t_id x ≠ t_id t) (order_by_desc t_created_at own))
    as ->.
  { apply (StronglySorted_unique_strong (desc_by t_created_at)).
    - intros t1 t2 Ht1 Ht2 H12 H21. unfold desc_by in *.
      apply elem_of_order_by_desc in Ht1.
      apply list_elem_of_filter in Ht1 as [Hg1 Ht1].
      cbn [delete_task db_tasks] in Ht1.
      apply list_elem_of_filter in Ht1 as [_ Ht1].
      apply list_elem_of_filter in Ht2 as [_ Ht2].
      apply elem_of_order_by_desc in Ht2.
      apply list_elem_of_filter in Ht2 as [Hg2 Ht2].
      apply Hdistinct; [done..|lia].
    - apply (StronglySorted_merge_sort (desc_by t_created_at)).
    - apply StronglySorted_filter.
      apply (StronglySorted_merge_sort (desc_by t_created_at)).
    - unfold order_by_desc. rewrite !merge_sort_Permutation.
      unfold own, own'. cbn [delete_task db_tasks].
      rewrite !list_filter_filter.
      erewrite list_filter_iff; [done|]. intros x. cbn. tauto. }
  apply Forall_fmap_ext_1, Forall_forall.
  intros x [Hne _]%list_elem_of_filter. f_equal.
  unfold select_subtasks_of. cbn [delete_task db_subtasks].
  apply list_filter_filter_l. intros y ->. done.
Qed.

Lemma delete_update_matches_refetch_witness :
  ∃ tasks,
    resp (handle 9901 GetTasks (Some alice) demo_db) = Json (JTasks tasks) ∧
    resp (handle 9900 (DeleteTask 1) (Some alice) demo_db) = Json JSuccess ∧
    resp (handle 9901 GetTasks (Some alice)
            (db_after (handle 9900 (DeleteTask 1) (Some alice) demo_db)))
    = Json (JTasks (deleteTask_tasks 1 tasks)).
Proof.
  apply (delete_update_matches_refetch 9900 9901 alice demo_db
           (mkTask 1 "u1" "run" 3)).
  - apply wf_demo_db.
  - vm_compute. left.
  - reflexivity.
  - intros t1 t2 Ht1 Ht2 Hg1 Hg2 Hc.
    vm_compute in Ht1. vm_compute in Ht2.
    repeat (apply elem_of_cons in Ht1 as [->|Ht1]);
      [..|by apply elem_of_nil in Ht1];
      (repeat (apply elem_of_cons in Ht2 as [->|Ht2]);
         [..|by apply elem_of_nil in Ht2]);
      first [reflexivity|discriminate Hc|discriminate Hg1|discriminate Hg2].
Defined.

(** * Rows that are never rewritten *)

Lemma handle_premium_kept now r sess d k u :
  db_users d !! k = Some u → u_ads_removed u = 1 →
  ∃ u', db_users (db_after (handle now r sess d)) !! k = Some u' ∧
        u_ads_removed u' = 1.
Proof.
  intros Hu Hflag.
  assert (∃ u', db_users d !! k = Some u' ∧ u_ads_removed u' = 1) as Hsame
    by eauto.
  unfold db_after. destruct r; cbn [handle]; try done.
  - unfold auth_callback, upsert_user. destruct fetched as [g|]; [|done].
    case_decide; [done|]. cbn [fst snd db_users].
    destruct (decide (g_id g = k)) as [<-|Hne].
    + rewrite lookup_insert_eq, Hu. eauto.
    + by rewrite lookup_insert_ne.
  - unfold get_me. by destruct sess.
  - unfold get_settings. destruct sess; [done|].
    by destruct (db_settings d !! "ads_removed").
  - unfold remove_ads, requireAuth. destruct sess as [g|]; [|done].
    cbn [fst snd update_ads_removed db_users].
    destruct (decide (g_id g = k)) as [<-|Hne].
    + rewrite lookup_alter_eq, Hu. eauto.
    + by rewrite lookup_alter_ne.
  - unfold get_tasks, requireAuth. by destruct sess.
  - unfold post_task, requireAuth, insert_task. destruct sess as [g|]; [|done].
    destruct title; [|done]. by destruct (db_users d !! g_id g).
  - unfold delete_task_handler, requireAuth. destruct sess; [|done].
    by destruct (select_owned_task _ _ _).
  - unfold post_subtask, requireAuth, insert_subtask. destruct sess; [|done].
    destruct (select_owned_task _ _ _); [|done].
    destruct title; [|done]. by case_decide.
  - unfold patch_subtask, requireAuth. destruct sess; [|done].
    destruct (select_owned_subtask _ _ _); [|done].
    cbn [fst snd]. by destruct (truthy _).
  - unfold get_photos, requireAuth. by destruct sess.
Qed.

(** Once a user's [ads_removed] is 1 it stays 1: no sequence of requests,
    by that user or anybody else, logins included, resets it or removes the
    row. *)
Theorem premium_flag_is_kept script d k u :
  db_users d !! k = Some u → u_ads_removed u = 1 →
  ∃ u', db_users (run script d) !! k = Some u' ∧ u_ads_removed u' = 1.
Proof.
  revert d u. induction script as [|[[now sess] r] script IH];
    intros d u Hu Hflag; [eauto|].
  simpl.
  destruct (handle_premium_kept now r sess d k u Hu Hflag) as (u' & Hu' & Hf').
  by eapply IH.
Qed.

Lemma premium_flag_is_kept_witness :
  ∃ u', db_users
          (run [(9950, None,
                 AuthCallback (Some (mkGoogle "u1" None (Some "A.") None)));
                (9960, Some bob, PostRemoveAds)]
             demo_db_premium) !! "u1" = Some u' ∧
        u_ads_removed u' = 1.
Proof.
  apply (premium_flag_is_kept _ demo_db_premium "u1"
           (mkUser (Some "alice@example.org") (Some "Alice") None 1)).
  - vm_compute. reflexivity.
  - reflexivity.
Defined.

(** POST /api/settings/remove-ads under a session whose user id is no row
    of [users] still answers success, although the UPDATE hit no row: the
    database is unchanged and GET /api/settings keeps reporting false. *)
Theorem remove_ads_without_row now now' g d :
  db_users d !! g_id g = None →
  handle now PostRemoveAds (Some g) d = (Json JSuccess, d, Some g) ∧
  resp (handle now' GetSettings (Some g) d) = Json (JSettings false).
Proof.
  intros Hnone. cbn [handle]. unfold remove_ads, requireAuth, get_settings.
  rewrite Hnone. split; [|done]. do 2 f_equal.
  unfold update_ads_removed. destruct d as [users tasks subtasks settings st ss].
  cbn in *. f_equal. apply map_eq. intros k.
  destruct (decide (g_id g = k)) as [<-|Hne].
  - by rewrite lookup_alter_eq, Hnone.
  - by rewrite lookup_alter_ne.
Qed.

Lemma remove_ads_without_row_witness :
  handle 9900 PostRemoveAds (Some (mkGoogle "ghost" None None None)) demo_db
  = (Json JSuccess, demo_db, Some (mkGoogle "ghost" None None None)).
Proof.
  refine (proj1 (remove_ads_without_row 9900 9901
                   (mkGoogle "ghost" None None None) demo_db _)).
  vm_compute. reflexivity.
Defined.

(** There is no route that edits a task or renames or moves a subtask: across
    any request a task row stays exactly as it is unless its owner deletes
    it, and a subtask keeps its id, parent and title unless its parent task is
    deleted by the owner. *)
Theorem rows_are_not_edited now r sess d :
  let d' := db_after (handle now r sess d) in
  (∀ t, t ∈ db_tasks d →
        t ∈ db_tasks d' ∨
        (∃ g, sess = Some g ∧ r = DeleteTask (t_id t) ∧
              ∃ t0, t0 ∈ db_tasks d ∧ t_id t0 = t_id t ∧
                    t_user_id t0 = g_id g)) ∧
  (∀ s, s ∈ db_subtasks d →
        (∃ s', s' ∈ db_subtasks d' ∧ s_id s' = s_id s ∧
               s_task_id s' = s_task_id s ∧ s_title s' = s_title s) ∨
        (∃ g, sess = Some g ∧ r = DeleteTask (s_task_id s) ∧
              ∃ t0, t0 ∈ db_tasks d ∧ t_id t0 = s_task_id s ∧
                    t_user_id t0 = g_id g)).
Proof.
  assert ((∀ t, t ∈ db_tasks d →
             t ∈ db_tasks d ∨
             (∃ g, sess = Some g ∧ r = DeleteTask (t_id t) ∧
                   ∃ t0, t0 ∈ db_tasks d ∧ t_id t0 = t_id t ∧
                         t_user_id t0 = g_id g)) ∧
          (∀ s, s ∈ db_subtasks d →
             (∃ s', s' ∈ db_subtasks d ∧ s_id s' = s_id s ∧
                    s_task_id s' = s_task_id s ∧ s_title s' = s_title s) ∨
             (∃ g, sess = Some g ∧ r = DeleteTask (s_task_id s) ∧
                   ∃ t0, t0 ∈ db_tasks d ∧ t_id t0 = s_task_id s ∧
                         t_user_id t0 = g_id g))) as Hsame.
  { split; [auto|]. intros s Hs. left. by exists s. }
  cbv zeta. unfold db_after. destruct r; cbn [handle]; try done.
  - unfold auth_callback, upsert_user. destruct fetched; [|done].
    by case_decide.
  - unfold get_me. by destruct sess.
  - unfold get_settings. destruct sess; [done|].
    by destruct (db_settings d !! "ads_removed").
  - unfold remove_ads, requireAuth. by destruct sess.
  - unfold get_tasks, requireAuth. by destruct sess.
  - unfold post_task, requireAuth, insert_task. destruct sess as [g|]; [|done].
    destruct title as [ti|]; [|done].
    destruct (db_users d !! g_id g) as [u|]; [|done].
    cbn [fst snd db_tasks db_subtasks]. split; [|apply Hsame].
    intros t Ht. left. apply elem_of_app. by left.
  - unfold delete_task_handler, requireAuth. destruct sess as [g|]; [|done].
    destruct (select_owned_task d id (g_id g)) as [t0|] eqn:Hsel; [|done].
    apply select_owned_task_Some in Hsel as (Ht0 & <- & Hown0).
    cbn [fst snd delete_task db_tasks db_subtasks]. split.
    + intros t Ht. destruct (decide (t_id t = t_id t0)) as [Heq|Hne].
      * right. exists g. rewrite Heq. eauto 10.
      * left. by apply list_elem_of_filter.
    + intros s Hs. destruct (decide (s_task_id s = t_id t0)) as [Heq|Hne].
      * right. exists g. rewrite Heq. eauto 10.
      * left. exists s. split; [|done]. by apply list_elem_of_filter.
  - unfold post_subtask, requireAuth, insert_subtask.
    destruct sess as [g|]; [|done].
    destruct (select_owned_task _ _ _) as [t0|]; [|done].
    destruct title as [ti|]; [|done]. case_decide; [|done].
    cbn [fst snd db_tasks db_subtasks]. split; [auto|].
    intros s Hs. left. exists s. split; [|done]. apply elem_of_app. by left.
  - unfold patch_subtask, requireAuth. destruct sess as [g|]; [|done].
    destruct (select_owned_subtask _ _ _) as [s0|]; [|done].
    cbn [fst snd]. destruct (truthy _);
      cbn [update_subtask_photo update_subtask_flag set_subtasks
           db_tasks db_subtasks];
      (split; [auto|]); intros x Hx; left; eexists;
      (split; [by apply list_elem_of_fmap_2|]); by case_decide.
  - unfold get_photos, requireAuth. by destruct sess.
Qed.
